(** * PRTG data source for Grafana: query translation and normalization

    A shallow embedding of [src/types.ts], [src/api.ts] and
    [src/datasource.ts].  JavaScript numbers are IEEE binary64 values, so
    they are modelled by Rocq's primitive floats: [NaN], the infinities and
    the strict comparisons behave as they do in the plugin.  Services of the
    JavaScript run time whose results the standard leaves to the host
    (date parsing, number formatting, the HTTP transport) are gathered in a
    record [Host] that every operation receives explicitly. *)

From Stdlib Require Import PrimFloat Ascii FloatOps SpecFloat.
From stdpp Require Import base option strings list sorting gmap pretty.

Set Warnings "-inexact-float,-register-all".
Open Scope string_scope.

(** ** JavaScript values *)

Module Js.

(** A decoded JSON document, extended with [undefined], which property
    reads produce.  The properties of an object are listed in the order
    [Object.entries] enumerates them. *)
Inductive JsValue : Type :=
| JUndefined
| JNull
| JBool (b : bool)
| JNum (x : float)
| JStr (s : string)
| JArr (items : list JsValue)
| JObj (props : list (string * JsValue)).

(** Outcome of an operation that may throw. *)
Inductive Result (A : Type) : Type :=
| Ok (a : A)
| Throw (message : string).
Arguments Ok {A} a.
Arguments Throw {A} message.

Definition bind {A B} (r : Result A) (k : A -> Result B) : Result B :=
  match r with
  | Ok a => k a
  | Throw e => Throw e
  end.

(** [try { body } catch (e) { handler }] *)
Definition tryCatch {A} (body : Result A) (handler : string -> A) : A :=
  match body with
  | Ok a => a
  | Throw e => handler e
  end.

(** [x > y] on numbers: false as soon as one side is [NaN]. *)
Definition gt (x y : float) : bool := PrimFloat.ltb y x.

(** ToBoolean on a number: [0], [-0] and [NaN] are falsy. *)
Definition numTruthy (x : float) : bool :=
  negb (PrimFloat.is_zero x || PrimFloat.is_nan x).

Definition strTruthy (s : string) : bool :=
  match s with
  | EmptyString => false
  | String _ _ => true
  end.

(** ToBoolean. *)
Definition truthy (v : JsValue) : bool :=
  match v with
  | JUndefined | JNull => false
  | JBool b => b
  | JNum x => numTruthy x
  | JStr s => strTruthy s
  | JArr _ | JObj _ => true
  end.

(** [o || d] *)
Definition orElse (v d : JsValue) : JsValue := if truthy v then v else d.

(** Association lists stand for plain objects used as records. *)
Fixpoint alookup {V} (k : string) (l : list (string * V)) : option V :=
  match l with
  | [] => None
  | (k', v) :: l' => if String.eqb k' k then Some v else alookup k l'
  end.

(** The [length] of an array or a string, as a number. *)
Fixpoint lengthNum (n : nat) : float :=
  match n with
  | O => 0%float
  | S n' => (lengthNum n' + 1)%float
  end.

(** [v.key] for the keys the plugin reads ([channels], [histdata],
    [datetime], [length]); none of them is defined on a prototype, so a
    read misses unless the value owns the property.  Reading a property
    of [null] or [undefined] throws a TypeError. *)
Definition getProp (v : JsValue) (key : string) : Result JsValue :=
  match v with
  | JUndefined | JNull =>
      Throw ("TypeError: Cannot read properties of null or undefined (reading '" ++ key ++ "')")
  | JObj props => Ok (default JUndefined (alookup key props))
  | JArr items =>
      Ok (if String.eqb key "length" then JNum (lengthNum (length items)) else JUndefined)
  | JStr s =>
      Ok (if String.eqb key "length" then JNum (lengthNum (String.length s)) else JUndefined)
  | JBool _ | JNum _ => Ok JUndefined
  end.

(** Names every plain object inherits from [Object.prototype]: reading
    one of them on [{}] yields a function (or, for [__proto__], the
    prototype itself), never [undefined]. *)
Definition objectPrototypeKeys : list string :=
  [ "constructor"; "hasOwnProperty"; "isPrototypeOf"; "propertyIsEnumerable";
    "toLocaleString"; "toString"; "valueOf"; "__proto__";
    "__defineGetter__"; "__defineSetter__"; "__lookupGetter__"; "__lookupSetter__" ].

Definition inherited (key : string) : bool :=
  bool_decide (key ∈ objectPrototypeKeys).

(** *** Own property order

    [Object.keys] lists array indices first, in ascending numeric order,
    then the other string keys in insertion order. *)

Fixpoint digitsValue (s : string) (acc : N) : option N :=
  match s with
  | EmptyString => Some acc
  | String c s' =>
      let n := Ascii.N_of_ascii c in
      if ((48 <=? n) && (n <=? 57))%N
      then digitsValue s' (10 * acc + (n - 48))%N
      else None
  end.

(** The canonical numeric strings ["0"] .. ["4294967294"]. *)
Definition arrayIndex (s : string) : option N :=
  match s with
  | EmptyString => None
  | String c rest =>
      if (Ascii.N_of_ascii c =? 48)%N
      then (if strTruthy rest then None else Some 0%N)
      else match digitsValue s 0 with
           | Some n => if (n <=? 4294967294)%N then Some n else None
           | None => None
           end
  end.

Definition indexOrder (a b : N * string) : Prop := (a.1 ≤ b.1)%N.

#[global] Instance indexOrder_dec a b : Decision (indexOrder a b).
Proof. unfold indexOrder. apply _. Defined.

Definition indexKeys (keys : list string) : list (N * string) :=
  omap (fun k => (fun n => (n, k)) <$> arrayIndex k) keys.

Definition ownKeysOrder (keys : list string) : list string :=
  ((merge_sort indexOrder (indexKeys keys)).*2
     ++ List.filter (fun k => negb (bool_decide (is_Some (arrayIndex k)))) keys)%list.

End Js.
Import Js.

(** ** [src/types.ts] *)

Module Types.

Inductive QueryType : Type := Metrics | Raw | Text | Manual.

#[global] Instance QueryType_eq_dec : EqDecision QueryType.
Proof. solve_decision. Defined.

(** [QueryType.x === QueryType.y] *)
Definition QueryType_eqb (a b : QueryType) : bool := bool_decide (a = b).

Inductive UpdateMode : Type := full | append.

(** [panelId?: string | number] *)
Inductive PanelId : Type :=
| PanelStr (s : string)
| PanelNum (n : float).

(** [MyQuery]; optional members are options, [None] being [undefined]. *)
Record MyQuery : Type := mkQuery {
  queryType : QueryType;
  group : string;
  device : string;
  sensor : string;
  sensorId : string;
  channel : option string;
  channelArray : option (list string);
  includeGroupName : option bool;
  includeDeviceName : option bool;
  includeSensorName : option bool;
  refId : string;
  isStreaming : option bool;
  streamInterval : option float;
  panelId : option PanelId;
  cacheTime : option float;
  bufferSize : option float;
  updateMode : option UpdateMode;
}.

(** ToBoolean of an optional boolean member. *)
Definition flag (b : option bool) : bool := default false b.

End Types.
Import Types.

(** ** Host services *)

Record FetchResponse : Type := mkResponse {
  status : Z;
  data : JsValue;
}.

Record Host : Type := mkHost {
  (** [new Date(v).getTime()]: epoch milliseconds, [NaN] for an invalid date *)
  Date_getTime : JsValue -> float;
  (** the global [parseFloat] *)
  parseFloat : JsValue -> float;
  (** [Number(s)] *)
  Number_ofString : string -> float;
  (** [n.toString()] *)
  Number_toString : float -> string;
  (** [toISOString()] of the instant at the given epoch milliseconds *)
  toISOString : float -> Result string;
  (** [lastValueFrom(getBackendSrv().fetch(..))] for a GET on [/api/<method>]
      with the given search parameters; [None] is a missing response *)
  fetch : string -> list (string * string) -> Result (option FetchResponse);
}.

(** ** [src/api.ts] *)

Module Api.

(** [PrtgApi.baseExecuteRequest]; the [catch] logs and rethrows. *)
Definition baseExecuteRequest (h : Host) (endpoint : string)
    (params : list (string * string)) : Result JsValue :=
  bind (fetch h endpoint params) (fun response =>
    match response with
    | None => Throw "Access denied: please verify API token and permissions"
    | Some r =>
        if (status r =? 403)%Z
        then Throw "Access denied: please verify API token and permissions"
        else if negb (status r =? 200)%Z
        then Throw ("Unexpected status code: " ++ pretty (status r))
        else Ok (data r)
    end).

(** The [avg] selection of [getSensorHistory] (lines 100-116). *)
Definition getSensorHistory_avg (hours : float) : string :=
  if gt hours 720 then "86400"
  else if gt hours 336 then "3600"
  else if gt hours 168 then "1800"
  else if gt hours 72 then "900"
  else if gt hours 48 then "600"
  else if gt hours 24 then "300"
  else if gt hours 12 then "120"
  else "0".

(** [(end.getTime() - start.getTime()) / (1000 * 60 * 60)] *)
Definition hoursBetween (startMs endMs : float) : float :=
  ((endMs - startMs) / (1000 * 60 * 60))%float.

(** [response.channels || response.histdata || []] *)
Definition historyRows (response : JsValue) : Result JsValue :=
  bind (getProp response "channels") (fun channels =>
    if truthy channels then Ok channels
    else bind (getProp response "histdata") (fun histdata =>
      Ok (orElse histdata (JArr [])))).

(** The search parameters of the history request. *)
Definition historyParams (h : Host) (sensorId : float)
    (startDate endDate : string) : list (string * string) :=
  let start := Date_getTime h (JStr startDate) in
  let end_ := Date_getTime h (JStr endDate) in
  let hours := hoursBetween start end_ in
  let avg := getSensorHistory_avg hours in
  [ ("id", Number_toString h sensorId); ("avg", avg);
    ("sdate", startDate); ("edate", endDate);
    ("columns", "datetime,value_"); ("usecaption", "1");
    ("count", "50000") ].

(** [PrtgApi.getSensorHistory] *)
Definition getSensorHistory (h : Host) (sensorId : float)
    (startDate endDate : string) : Result JsValue :=
  if negb (numTruthy sensorId) then Throw "sensorId parameter is required"
  else
    bind (baseExecuteRequest h "historicdata.json"
            (historyParams h sensorId startDate endDate))
         historyRows.

End Api.

(** ** [src/datasource.ts] *)

Module DataSource.

(** *** Data frames *)

Inductive FieldType : Type := time | number.

Record Field : Type := mkField {
  fieldName : string;
  fieldValues : list float;
  fieldType : FieldType;
}.

(** A data frame; [meta] is [None] when the member is missing. *)
Record DataFrame : Type := mkFrame {
  frameRefId : string;
  frameName : string;
  fields : list Field;
  meta : option (gmap string JsValue);
}.

(** *** Dispatch ([query], lines 62-67) *)

Definition isStreamingTarget (query : MyQuery) : bool :=
  flag (isStreaming query) && QueryType_eqb (queryType query) Metrics.

Definition isRegularTarget (query : MyQuery) : bool :=
  negb (flag (isStreaming query)) || negb (QueryType_eqb (queryType query) Metrics).

Definition streamingTargets (targets : list MyQuery) : list MyQuery :=
  List.filter isStreamingTarget targets.

Definition regularTargets (targets : list MyQuery) : list MyQuery :=
  List.filter isRegularTarget targets.

(** *** Stream identifier ([getStreamId]) *)

(** An element of [components]: a string or a number. *)
Inductive Component : Type :=
| CStr (s : string)
| CNum (n : float).

Definition componentTruthy (c : Component) : bool :=
  match c with
  | CStr s => strTruthy s
  | CNum n => numTruthy n
  end.

Definition componentString (h : Host) (c : Component) : string :=
  match c with
  | CStr s => s
  | CNum n => Number_toString h n
  end.

(** [query.panelId || 'default'] *)
Definition panelComponent (p : option PanelId) : Component :=
  match p with
  | Some (PanelStr s) => if strTruthy s then CStr s else CStr "default"
  | Some (PanelNum n) => if numTruthy n then CNum n else CStr "default"
  | None => CStr "default"
  end.

(** [s || d] on strings *)
Definition strOr (s d : string) : string := if strTruthy s then s else d.

Definition components (query : MyQuery) : list Component :=
  [ panelComponent (panelId query);
    CStr (strOr (refId query) "A");
    CStr (strOr (sensorId query) "");
    CStr (match channelArray query with
          | Some arr => String.concat "-" arr
          | None => strOr (default "" (channel query)) ""
          end) ].

Definition getStreamId (h : Host) (query : MyQuery) : string :=
  String.concat "_"
    (List.map (componentString h) (List.filter componentTruthy (components query))).

(** *** Streaming frames ([query], lines 100-114) *)

(** [{ ...frame.meta, streaming: true, streamId, preferredVisualisationType: 'graph' }] *)
Definition streamingMeta (streamId : string) (m : gmap string JsValue)
    : gmap string JsValue :=
  <["preferredVisualisationType" := JStr "graph"]>
    (<["streamId" := JStr streamId]> (<["streaming" := JBool true]> m)).

(** The body of [frameData.forEach]; a [None] frame is [null] or
    [undefined]. *)
Definition enhanceFrame (streamId : string) (frame : option DataFrame)
    : option DataFrame :=
  match frame with
  | Some f =>
      match meta f with
      | Some m =>
          Some (mkFrame (frameRefId f) (frameName f) (fields f)
                  (Some (streamingMeta streamId m)))
      | None => Some f
      end
  | None => None
  end.

(** The [map] operator applied to one emission of the live channel:
    [response.data || []], every frame enhanced in place. *)
Definition enhanceResponse (streamId : string)
    (responseData : option (list (option DataFrame))) : list (option DataFrame) :=
  List.map (enhanceFrame streamId) (default [] responseData).

(** *** Normalization of history rows ([query], lines 148-192) *)

Record NormState : Type := mkNorm {
  times : list float;
  values : list (string * list float);
  channelLabels : list (string * string);
}.

(** [o[k] = v] on a plain object with string keys. *)
Fixpoint aset {V} (k : string) (v : V) (l : list (string * V)) : list (string * V) :=
  match l with
  | [] => [(k, v)]
  | (k', v') :: l' =>
      if String.eqb k' k then (k', v) :: l' else (k', v') :: aset k v l'
  end.

(** [o[k].push(x)] where [o[k]] is an own array. *)
Fixpoint apush {V} (k : string) (x : V) (l : list (string * list V))
    : list (string * list V) :=
  match l with
  | [] => []
  | (k', xs) :: l' =>
      if String.eqb k' k then (k', (xs ++ [x])%list) :: l' else (k', xs) :: apush k x l'
  end.

(** [typeof value === 'number' ? value : parseFloat(value) || 0] *)
Definition coerce (h : Host) (value : JsValue) : float :=
  match value with
  | JNum x => x
  | _ => let p := parseFloat h value in if numTruthy p then p else 0%float
  end.

(** The callback of [Object.entries(item).forEach].  On a key inherited
    from [Object.prototype], [values[key]] is truthy but has no [push]. *)
Definition pushSample (h : Host) (st : NormState) (entry : string * JsValue)
    : Result NormState :=
  let '(key, value) := entry in
  if String.eqb key "datetime" then Ok st
  else if inherited key then Throw "TypeError: values[key].push is not a function"
  else
    let st1 :=
      match alookup key (values st) with
      | Some _ => st
      | None => mkNorm (times st) (aset key [] (values st))
                       (aset key key (channelLabels st))
      end in
    Ok (mkNorm (times st1) (apush key (coerce h value) (values st1))
               (channelLabels st1)).

Fixpoint forEach {S A} (f : S -> A -> Result S) (s : S) (l : list A) : Result S :=
  match l with
  | [] => Ok s
  | a :: l' => bind (f s a) (fun s' => forEach f s' l')
  end.

(** [Object.entries(item)]; only reached for an item that owns a truthy
    [datetime], which is an object. *)
Definition entries (item : JsValue) : list (string * JsValue) :=
  match item with
  | JObj props => props
  | _ => []
  end.

(** The callback of [histDataArray.forEach]. *)
Definition processRow (h : Host) (st : NormState) (item : JsValue)
    : Result NormState :=
  bind (getProp item "datetime") (fun datetime =>
    if truthy datetime then
      let time_ := Date_getTime h datetime in
      forEach (pushSample h)
        (mkNorm (times st ++ [time_])%list (values st) (channelLabels st))
        (entries item)
    else Ok st).

Definition emptyNorm : NormState := mkNorm [] [] [].

Definition normalizeRows (h : Host) (rows : list JsValue) : Result NormState :=
  forEach (processRow h) emptyNorm rows.

(** [prefixParts] *)
Definition prefixParts (target : MyQuery) : list string :=
  ((if flag (includeGroupName target) && strTruthy (group target)
    then [group target] else [])
   ++ (if flag (includeDeviceName target) && strTruthy (device target)
       then [device target] else [])
   ++ (if flag (includeSensorName target) && strTruthy (sensor target)
       then [sensor target] else []))%list.

Definition prefix (target : MyQuery) : string :=
  match prefixParts target with
  | [] => ""
  | parts => String.concat " - " parts ++ " - "
  end.

(** One frame of [Object.keys(values).map(..)]. *)
Definition channelFrame (target : MyQuery) (st : NormState) (channel_ : string)
    : DataFrame :=
  let name := default "undefined" (alookup channel_ (channelLabels st)) in
  mkFrame (refId target) (prefix target ++ name)
    [ mkField "Time" (times st) time;
      mkField "Value" (default [] (alookup channel_ (values st))) number ]
    None.

Definition channelFrames (target : MyQuery) (st : NormState) : list DataFrame :=
  List.map (channelFrame target st) (ownKeysOrder (List.map fst (values st))).

(** *** The regular path ([query], lines 126-213) *)

Record TimeRange : Type := mkRange {
  (** [range.from.valueOf()] and [range.to.valueOf()] *)
  from : float;
  to : float;
}.

Record QueryResult : Type := mkResult {
  resultRefId : string;
  resultData : list DataFrame;
}.

(** [.replace(/[:.]/g, '-')] *)
Fixpoint replaceColonDot (s : string) : string :=
  match s with
  | EmptyString => EmptyString
  | String c s' =>
      String (if (Ascii.eqb c ":" || Ascii.eqb c ".")%bool then "-"%char else c)
             (replaceColonDot s')
  end.

(** [.toISOString().replace(/[:.]/g, '-').slice(0, 19)] *)
Definition formatDate (h : Host) (ms : float) : Result string :=
  bind (toISOString h ms) (fun iso =>
    Ok (String.substring 0 19 (replaceColonDot iso))).

(** The body of the [try] block for one Metrics target. *)
Definition fetchFrames (h : Host) (range : TimeRange) (target : MyQuery)
    : Result (list DataFrame) :=
  bind (formatDate h (from range)) (fun startDate =>
  bind (formatDate h (to range)) (fun endDate =>
  bind (Api.getSensorHistory h (Number_ofString h (sensorId target))
          startDate endDate) (fun histData =>
  bind (getProp histData "length") (fun len =>
    if negb (truthy len) then Ok []
    else
      let histDataArray :=
        match histData with
        | JArr items => items
        | _ => []
        end in
      bind (normalizeRows h histDataArray) (fun st =>
        Ok (channelFrames target st)))))).

(** The callback of [regularTargets.map]: every exception of the [try]
    block is caught and answered with an empty result. *)
Definition resolveTarget (h : Host) (range : TimeRange) (target : MyQuery)
    : QueryResult :=
  if QueryType_eqb (queryType target) Metrics && strTruthy (sensorId target)
  then
    tryCatch
      (bind (fetchFrames h range target) (fun frames =>
         Ok (mkResult (refId target) frames)))
      (fun _ => mkResult (refId target) [])
  else mkResult (refId target) [].

(** [results.flatMap(r => r.data)] over [Promise.all(promises)], which
    keeps the order of the targets. *)
Definition regularFrames (h : Host) (range : TimeRange) (targets : list MyQuery)
    : list DataFrame :=
  List.flat_map resultData (List.map (resolveTarget h range) targets).

(** *** Annotations ([getAnnotations], lines 305-321) *)

Definition getAnnotations_avg (hours : float) : string :=
  if gt hours 720 then "86400"
  else if gt hours 336 then "3600"
  else if gt hours 168 then "1800"
  else if gt hours 72 then "900"
  else if gt hours 48 then "600"
  else if gt hours 24 then "300"
  else if gt hours 12 then "120"
  else "0".

(** [(toTime.getTime() - fromTime.getTime()) / (1000 * 60 * 60)] *)
Definition annotationHours (fromMs toMs : float) : float :=
  ((toMs - fromMs) / (1000 * 60 * 60))%float.

End DataSource.

(** ** The resolution policy as the specification words it *)

Module Policy.

Definition buckets : list string :=
  [ "0"; "120"; "300"; "600"; "900"; "1800"; "3600"; "86400" ].

(** Descending thresholds in hours, each with the bucket chosen above it. *)
Definition thresholds : list (float * string) :=
  [ (720, "86400"); (336, "3600"); (168, "1800"); (72, "900");
    (48, "600"); (24, "300"); (12, "120") ]%float.

(** First threshold strictly below the range wins; otherwise ["0"]. *)
Definition selectBucketSeconds (rangeHours : float) : string :=
  match List.find (fun tb => gt rangeHours tb.1) thresholds with
  | Some tb => tb.2
  | None => "0"
  end.

End Policy.

(** ** Sample host and data used to exercise the model *)

Module Examples.

Definition history42 : JsValue :=
  JObj [ ("histdata", JArr [
    JObj [ ("datetime", JStr "1/1/2024 12:00:00 AM"); ("Ping", JNum 1);
           ("Loss", JStr "2.5") ];
    JObj [ ("datetime", JStr "1/2/2024 12:00:00 AM"); ("Ping", JNum 4);
           ("Loss", JStr "n/a") ] ]) ].

Definition host : Host := {|
  Date_getTime v :=
    match v with
    | JStr "1/1/2024 12:00:00 AM" => 1704067200000
    | JStr "1/2/2024 12:00:00 AM" => 1704153600000
    | JNum x => x
    | _ => nan
    end%float;
  parseFloat v :=
    match v with
    | JStr "2.5" => 2.5
    | _ => nan
    end%float;
  Number_ofString s :=
    match s with
    | "42" => 42
    | "7" => 7
    | "9" => 9
    | "" => 0
    | _ => nan
    end%float;
  Number_toString x :=
    if (x =? 42)%float then "42"
    else if (x =? 7)%float then "7"
    else if (x =? 9)%float then "9"
    else if (x =? 1)%float then "1"
    else "NaN";
  toISOString x :=
    if (x =? 1704067200000)%float then Ok "2024-01-01T00:00:00.000Z"
    else if (x =? 1704240000000)%float then Ok "2024-01-03T00:00:00.000Z"
    else Throw "RangeError: Invalid time value";
  fetch endpoint params :=
    match alookup "id" params with
    | Some "42" => Ok (Some (mkResponse 200 history42))
    | Some "9" => Ok (Some (mkResponse 200 JNull))
    | Some "7" => Throw "Failed to fetch"
    | _ => Ok (Some (mkResponse 403 JUndefined))
    end
|}.

Definition range48h : DataSource.TimeRange :=
  DataSource.mkRange 1704067200000 1704240000000.

Definition metricsQuery (ref sensor_ : string) : MyQuery :=
  mkQuery Metrics "Core" "Router" "Ping" sensor_ (Some "") None
          (Some true) None (Some true) ref None None None None None None.

Definition streamQuery : MyQuery :=
  mkQuery Metrics "Core" "Router" "Ping" "42" None (Some ["ch1"])
          None None None "A" (Some true) None (Some (PanelStr "1"))
          None None None.

Definition streamQueryNoPanel : MyQuery :=
  mkQuery Metrics "Edge" "Switch" "Traffic" "42" (Some "ignored") (Some ["ch1"])
          (Some true) None None "A" (Some true) (Some 1000%float) None
          None None (Some append).

(** Same derivation inputs as [streamQueryNoPanel], everything else
    different; the channel comes from [channel], not [channelArray]. *)
Definition streamQueryOther : MyQuery :=
  mkQuery Metrics "Core" "Router" "Ping" "42" (Some "ch1") None
          None (Some true) None "A" (Some true) None None
          (Some 6000%float) (Some 100%float) (Some full).

Definition rawStreaming : MyQuery :=
  mkQuery Raw "" "" "" "42" None None None None None "B" (Some true)
          None None None None None.

Definition bareFrame : DataSource.DataFrame :=
  DataSource.mkFrame "A" "Ping"
    [ DataSource.mkField "Time" [1704067200000%float] DataSource.time;
      DataSource.mkField "Value" [1%float] DataSource.number ] None.

Definition liveFrame : DataSource.DataFrame :=
  DataSource.mkFrame "A" "Ping"
    [ DataSource.mkField "Time" [1704067200000%float] DataSource.time;
      DataSource.mkField "Value" [1%float] DataSource.number ]
    (Some {[ "custom" := JStr "x" ]}).

(** Rows whose key sets differ. *)
Definition raggedRows : list JsValue :=
  [ JObj [ ("datetime", JStr "1/1/2024 12:00:00 AM"); ("Ping", JNum 1) ];
    JObj [ ("datetime", JStr "1/2/2024 12:00:00 AM"); ("Ping", JNum 4);
           ("Loss", JNum 3) ] ].


(** A row with a channel named like a member of [Object.prototype]. *)
Definition prototypeRow : JsValue :=
  JObj [ ("datetime", JStr "1/1/2024 12:00:00 AM"); ("constructor", JNum 1) ].


Definition uniformRows : list (list (string * JsValue)) :=
  [ [ ("datetime", JStr "1/1/2024 12:00:00 AM"); ("Ping", JNum 1);
      ("Loss", JStr "2.5") ];
    [ ("Loss", JStr "n/a"); ("datetime", JStr "1/2/2024 12:00:00 AM");
      ("Ping", JNum 4) ] ].

End Examples.

(** ** Vocabulary of the statements *)

(** The member [key] of a decoded body, when the body is an object that
    owns it. *)
Definition ownField (body : JsValue) (key : string) : option JsValue :=
  match body with
  | JObj props => alookup key props
  | _ => None
  end.

(** "The field is present and truthy." *)
Definition presentTruthy (body : JsValue) (key : string) : Prop :=
  exists v, ownField body key = Some v /\ truthy v = true.

(** The last derivation input of a stream identifier: the channel array
    when there is one, the single channel otherwise. *)
Definition channelPart (query : MyQuery) : string :=
  match channelArray query with
  | Some arr => String.concat "-" arr
  | None => default "" (channel query)
  end.

(** A component after the first two: dropped when empty, otherwise
    preceded by the separator. *)
Definition optPart (s : string) : string :=
  if strTruthy s then "_" ++ s else "".

(** Two queries with the same derivation inputs. *)
Definition sameStreamInputs (q1 q2 : MyQuery) : Prop :=
  panelId q1 = panelId q2 /\ refId q1 = refId q2 /\ sensorId q1 = sensorId q2
  /\ channelPart q1 = channelPart q2.

(** [frame.fields.find(field => field.name === name)], as
    [annotations.processEvents] reads a frame. *)
Definition findField (name : string) (f : DataSource.DataFrame)
    : option DataSource.Field :=
  List.find (fun fld => String.eqb (DataSource.fieldName fld) name)
            (DataSource.fields f).

(** The timestamp axis and the samples of a series. *)
Definition timeAxis (f : DataSource.DataFrame) : option (list float) :=
  DataSource.fieldValues <$> findField "Time" f.

Definition samples (f : DataSource.DataFrame) : option (list float) :=
  DataSource.fieldValues <$> findField "Value" f.

(** The [datetime] member of a row and whether the row passes
    [if (item.datetime)]. *)
Definition rowDatetime (props : list (string * JsValue)) : JsValue :=
  default JUndefined (alookup "datetime" props).

Definition rowKept (props : list (string * JsValue)) : bool :=
  truthy (rowDatetime props).

(** What one row adds to the time axis. *)
Definition rowTimes (h : Host) (props : list (string * JsValue)) : list float :=
  if rowKept props then [Date_getTime h (rowDatetime props)] else [].

(** What the entries of a row add to channel [k]. *)
Definition rowSamples (h : Host) (k : string) (es : list (string * JsValue))
    : list float :=
  List.flat_map
    (fun e => if String.eqb e.1 "datetime" then []
              else if String.eqb e.1 k then [DataSource.coerce h e.2] else [])
    es.

Definition keptSamples (h : Host) (k : string) (props : list (string * JsValue))
    : list float :=
  if rowKept props then rowSamples h k props else [].

(** A stored column extended by new samples; a column exists once it has
    received a sample. *)
Definition extendCol (col : option (list float)) (new : list float)
    : option (list float) :=
  match new with
  | [] => col
  | _ => Some (default [] col ++ new)%list
  end.

(** Channel [k] read off the rows, one sample per row, in row order. *)
Definition column (h : Host) (k : string) (rows : list (list (string * JsValue)))
    : list float :=
  List.map (fun props => DataSource.coerce h (default JUndefined (alookup k props)))
           rows.

(** The channel keys of a key list. *)
Definition channelKeys (keys : list string) : list string :=
  List.filter (fun k => negb (String.eqb k "datetime")) keys.

(** No channel key of a kept row is the name of an inherited property. *)
Definition rowSafe (props : list (string * JsValue)) : Prop :=
  rowKept props = true ->
  forall e, In e props -> e.1 <> "datetime" -> inherited e.1 = false.

(** The accumulator is well formed: its keys are distinct and every
    channel is labelled by its own key. *)
Definition wfNorm (st : DataSource.NormState) : Prop :=
  NoDup (DataSource.values st).*1
  /\ DataSource.channelLabels st
      = List.map (fun kv => (kv.1, kv.1)) (DataSource.values st).

(** Every row is a timestamped object with the key set [keys]. *)
Definition sharedKeys (keys : list string) (rows : list (list (string * JsValue)))
    : Prop :=
  Forall (fun props => NoDup props.*1 /\ props.*1 ≡ₚ keys /\ rowKept props = true)
         rows.

(** The series built for channel [k] from rows that all carry it. *)
Definition seriesOf (h : Host) (target : MyQuery) (axis : list float)
    (rows : list (list (string * JsValue))) (k : string) : DataSource.DataFrame :=
  DataSource.mkFrame (refId target) (DataSource.prefix target ++ k)
    [ DataSource.mkField "Time" axis DataSource.time;
      DataSource.mkField "Value" (column h k rows) DataSource.number ]
    None.


(** ** [src/api.ts]: the list endpoints and the annotation data *)

Module ApiLists.

Definition listColumns : string :=
  "active,channel,datetime,device,group,message,objid,priority,sensor,status,tags".

(** [response.<member> || []] *)
Definition memberOrEmpty (response : JsValue) (member : string) : Result JsValue :=
  bind (getProp response member) (fun v => Ok (orElse v (JArr []))).

(** [PrtgApi.getSensors] *)
Definition getSensors (h : Host) (device : string) : Result JsValue :=
  if negb (strTruthy device) then Throw "device parameter is required"
  else
    bind (Api.baseExecuteRequest h "table.json"
            [ ("content", "sensors"); ("columns", listColumns);
              ("count", "50000"); ("filter_device", device) ])
         (fun response => memberOrEmpty response "sensors").

(** [PrtgApi.getDevices] *)
Definition getDevices (h : Host) (group : string) : Result JsValue :=
  if negb (strTruthy group) then Throw "group parameter is required"
  else
    bind (Api.baseExecuteRequest h "table.json"
            [ ("content", "devices"); ("columns", listColumns);
              ("count", "50000"); ("filter_group", group) ])
         (fun response => memberOrEmpty response "devices").

(** [PrtgApi.getChannels] *)
Definition getChannels (h : Host) (objid : string) : Result JsValue :=
  bind (Api.baseExecuteRequest h "historicdata.json"
          [ ("content", "values"); ("id", objid);
            ("columns", "value_,datetime"); ("usecaption", "true") ])
       (fun response => memberOrEmpty response "channels").

(** [PrtgApi.getStatusList] *)
Definition getStatusList (h : Host) : Result JsValue :=
  Api.baseExecuteRequest h "status.json" [].

(** [PrtgApi.getGroupList] *)
Definition getGroupList (h : Host) : Result JsValue :=
  bind (Api.baseExecuteRequest h "table.json"
          [ ("content", "groups"); ("columns", listColumns);
            ("count", "50000"); ("output", "json") ])
       (fun response => memberOrEmpty response "groups").

End ApiLists.

(** ** Annotations ([getAnnotationData], [getAnnotations], [processEvents]) *)

Module Annotations.

Record AnnotationQuery : Type := mkAnnotationQuery {
  annSensorId : string;
  annFrom : float;
  annTo : float;
  annLimit : option float;
}.

Record Annotation : Type := mkAnnotation {
  annotationId : string;
  annotationTime : float;
  annotationTimeEnd : float;
  annotationTitle : string;
  annotationTags : list string;
  annotationType : string;
  annotationData : JsValue;
}.

Record AnnotationResponse : Type := mkAnnotationResponse {
  annotations : list Annotation;
  total : nat;
}.

(** The callback of [.map((data, i) => ..)]; the index is printed in
    decimal, as a template literal prints an array index. *)
Definition toAnnotation (h : Host) (sensorId : string) (i : nat) (data : JsValue)
    : Result Annotation :=
  bind (getProp data "datetime") (fun datetime =>
    let time_ := Date_getTime h datetime in
    bind (getProp data "value_") (fun value_ =>
      Ok (mkAnnotation ("uid:" ++ sensorId ++ "_" ++ pretty i) time_ time_
            ("Sensor: " ++ sensorId) [ "prtg"; "sensor:" ++ sensorId ]
            "annotation" value_))).

Fixpoint mapAnnotations (h : Host) (sensorId : string) (i : nat)
    (rows : list JsValue) : Result (list Annotation) :=
  match rows with
  | [] => Ok []
  | data :: rest =>
      bind (toAnnotation h sensorId i data) (fun a =>
        bind (mapAnnotations h sensorId (S i) rest) (fun l => Ok (a :: l)))
  end.

(** ToIntegerOrInfinity of a positive number; [None] is [+Infinity]. *)
Definition truncToN (x : float) : option N :=
  match Prim2SF x with
  | S754_finite false m e =>
      Some (Z.to_N (if (0 <=? e)%Z then Z.shiftl (Z.pos m) e
                    else Z.shiftr (Z.pos m) (- e)))
  | S754_infinity false => None
  | _ => Some 0%N
  end.

(** The end index of [slice(0, limit)] on an array of [len] elements, for
    a positive [limit]. *)
Definition sliceEnd (limit : float) (len : nat) : nat :=
  match truncToN limit with
  | Some n => N.to_nat (N.min n (N.of_nat len))
  | None => len
  end.

(** [query.limit && query.limit > 0 ? annotations.slice(0, query.limit)
    : annotations] *)
Definition applyLimit {A} (limit : option float) (l : list A) : list A :=
  match limit with
  | Some x => if numTruthy x && gt x 0 then take (sliceEnd x (length l)) l else l
  | None => l
  end.

Definition respond (limit : option float) (l : list Annotation)
    : AnnotationResponse :=
  let limited := applyLimit limit l in
  mkAnnotationResponse limited (length limited).

(** [PrtgApi.getAnnotationData]: the history is mapped whatever it is, so
    a history without [map] throws. *)
Definition getAnnotationData (h : Host) (query : AnnotationQuery)
    : Result AnnotationResponse :=
  bind (DataSource.formatDate h (annFrom query)) (fun fromStr =>
  bind (DataSource.formatDate h (annTo query)) (fun toStr =>
  bind (Api.getSensorHistory h (Number_ofString h (annSensorId query))
          fromStr toStr) (fun histData =>
  bind (match orElse histData (JArr []) with
        | JArr rows => mapAnnotations h (annSensorId query) 0 rows
        | _ => Throw "TypeError: (histData || []).map is not a function"
        end) (fun l =>
    Ok (respond (annLimit query) l))))).

(** [DataSource.getAnnotations]: only an array is mapped; the [catch]
    logs and rethrows.  The [avg] and [params] computed before the [try]
    are not used by the request. *)
Definition getAnnotations (h : Host) (query : AnnotationQuery)
    : Result AnnotationResponse :=
  bind (DataSource.formatDate h (annFrom query)) (fun fromStr =>
  bind (DataSource.formatDate h (annTo query)) (fun toStr =>
  bind (Api.getSensorHistory h (Number_ofString h (annSensorId query))
          fromStr toStr) (fun response =>
    let histData := orElse response (JArr []) in
    let annotationsData :=
      match histData with
      | JArr rows => rows
      | _ => []
      end in
    bind (mapAnnotations h (annSensorId query) 0 annotationsData) (fun l =>
      Ok (respond (annLimit query) l))))).

Record AnnotationEvent : Type := mkEvent {
  eventTime : option float;
  eventTimeEnd : option float;
  eventTitle : string;
  eventText : string;
  eventTags : list string;
  eventPanelId : option float;
}.

(** [lastTime !== firstTime] on entries read from one array. *)
Definition differs (a b : option float) : bool :=
  match a, b with
  | Some x, Some y => negb (PrimFloat.eqb x y)
  | None, None => false
  | _, _ => true
  end.

(** [`${firstValue}`] *)
Definition shown (h : Host) (v : option float) : string :=
  match v with
  | Some x => Number_toString h x
  | None => "undefined"
  end.

(** The callback of [data.forEach] in [annotations.processEvents]. *)
Definition frameEvent (h : Host) (anno : JsValue) (frame : DataSource.DataFrame)
    : Result (option AnnotationEvent) :=
  match findField "Time" frame, findField "Value" frame with
  | Some timeField, Some valueField =>
      let firstTime := head (DataSource.fieldValues timeField) in
      let lastTime := last (DataSource.fieldValues timeField) in
      let firstValue := head (DataSource.fieldValues valueField) in
      bind (getProp anno "panelId") (fun p =>
        let panelId := match p with JNum n => Some n | _ => None end in
        let source := DataSource.strOr (DataSource.frameName frame) "PRTG Channel" in
        Ok (Some (mkEvent firstTime
                    (if differs lastTime firstTime then lastTime else None)
                    source ("Value: " ++ shown h firstValue)
                    [ "prtg"; "value:" ++ shown h firstValue; "source:" ++ source ]
                    panelId)))
  | _, _ => Ok None
  end.

(** [annotations.processEvents] *)
Fixpoint processEvents (h : Host) (anno : JsValue)
    (data : list DataSource.DataFrame) : Result (list AnnotationEvent) :=
  match data with
  | [] => Ok []
  | frame :: rest =>
      bind (frameEvent h anno frame) (fun ev =>
        bind (processEvents h anno rest) (fun evs =>
          Ok (match ev with Some e => e :: evs | None => evs end)))
  end.

End Annotations.

(** ** [src/datasource.ts]: the lookups of the hierarchy and the health check *)

Module DataSourceLists.

(** [{ prtgversion: '', treesize, <member>: items }] *)
Definition envelope (member : string) (treesize items : JsValue) : JsValue :=
  JObj [ ("prtgversion", JStr ""); ("treesize", treesize); (member, items) ].

(** [DataSource.getGroups] *)
Definition getGroups (h : Host) : Result JsValue :=
  bind (ApiLists.getGroupList h) (fun items =>
    bind (getProp items "length") (fun n => Ok (envelope "groups" n items))).

(** [DataSource.getDevices] *)
Definition getDevices (h : Host) (group : string) : Result JsValue :=
  if negb (strTruthy group) then Throw "group is required"
  else
    bind (ApiLists.getDevices h group) (fun items =>
      bind (getProp items "length") (fun n => Ok (envelope "devices" n items))).

(** [Array.isArray(items) ? items : [items].filter(Boolean)] *)
Definition asArray (items : JsValue) : list JsValue :=
  match items with
  | JArr l => l
  | v => if truthy v then [v] else []
  end.

(** [DataSource.getSensors] *)
Definition getSensors (h : Host) (device : string) : Result JsValue :=
  if negb (strTruthy device) then Throw "device is required"
  else
    bind (ApiLists.getSensors h device) (fun items =>
      let sensorsArray := asArray items in
      Ok (envelope "sensors" (JNum (lengthNum (length sensorsArray)))
                   (JArr sensorsArray))).

(** [DataSource.getChannels] *)
Definition getChannels (h : Host) (sensorId : string) : Result JsValue :=
  if negb (strTruthy sensorId) then Throw "sensorId is required"
  else
    bind (ApiLists.getChannels h sensorId) (fun channels =>
      let channelsArray := asArray channels in
      Ok (envelope "values" (JNum (lengthNum (length channelsArray)))
                   (JArr channelsArray))).

Record TestResult : Type := mkTest {
  testStatus : string;
  testMessage : string;
}.

(** [DataSource.testDatasource]; [isError] tells of a thrown value whether
    it is an [Error] instance. *)
Definition testDatasource (h : Host) (isError : string -> bool) : TestResult :=
  tryCatch
    (bind (ApiLists.getStatusList h) (fun status_ =>
       Ok (if truthy status_
           then mkTest "success" "Success - Connected to PRTG Server"
           else mkTest "error" "Failed to connect to PRTG Server")))
    (fun err =>
       mkTest "error"
         (if isError err then "Error connecting to PRTG Server" ++ ": " ++ err
          else "Error connecting to PRTG Server")).

(** [DataSource.filterQuery] *)
Definition filterQuery (query : MyQuery) : bool :=
  strTruthy (default "" (channel query)).

End DataSourceLists.

(** ** The configuration editor ([onCacheChange]) *)

Module ConfigEditor.

(** The [cache] written to [jsonData] for the parsed input
    [cache_timeout = parseInt(event.target.value, 10)]. *)
Definition onCacheChange (cache_timeout : float) : float :=
  if gt cache_timeout 0 && PrimFloat.leb cache_timeout 1440
  then cache_timeout
  else 5%float.

(** The error text shown next to the input. *)
Definition onCacheChange_error (cache_timeout : float) : string :=
  if gt cache_timeout 0 && PrimFloat.leb cache_timeout 1440
  then ""
  else "Cache timeout should be a number between 1 and 1440. It will default to 5 if not set.".

End ConfigEditor.

(** ** [src/components/QueryEditor.tsx]: the channel options *)

Module QueryEditor.

(** [typeof v === 'object'] *)
Definition typeofObject (v : JsValue) : bool :=
  match v with
  | JNull | JArr _ | JObj _ => true
  | _ => false
  end.

(** [Object.keys(v)] for a value whose [typeof] is ['object']. *)
Definition objectKeys (v : JsValue) : Result (list string) :=
  match v with
  | JObj props => Ok props.*1
  | JArr items => Ok (pretty <$> seq 0 (length items))
  | JNull => Throw "TypeError: Cannot convert undefined or null to object"
  | _ => Ok []
  end.

(** [{ label: key, value: key }] *)
Record SelectableValue : Type := mkOption {
  label : string;
  value : string;
}.

(** [loadChannelOptions]; [response] is the envelope [getChannels]
    builds, an object that owns [values]. *)
Definition loadChannelOptions (h : Host) (sensorId : string)
    : list SelectableValue :=
  if negb (strTruthy sensorId) then []
  else
    tryCatch
      (bind (DataSourceLists.getChannels h sensorId) (fun response =>
         if negb (truthy response) then Ok []
         else
           match ownField response "values" with
           | Some (JArr (channelData :: _)) =>
               if negb (typeofObject channelData) then Ok []
               else
                 bind (objectKeys channelData) (fun keys =>
                   Ok (List.map (fun key => mkOption key key)
                         (List.filter (fun key => negb (String.eqb key "datetime"))
                                      keys)))
           | _ => Ok []
           end))
      (fun _ => []).

End QueryEditor.

(** ** More vocabulary and sample data *)

(** One part of a series prefix: the label followed by the separator when
    the flag is set and the label is not empty. *)
Definition prefixPart (enabled : option bool) (label : string) : string :=
  if flag enabled && strTruthy label then label ++ " - " else "".

(** No character of the string is a colon or a dot. *)
Fixpoint plain (s : string) : bool :=
  match s with
  | EmptyString => true
  | String c s' => negb (Ascii.eqb c ":" || Ascii.eqb c ".") && plain s'
  end.

Module Samples.

(** The sample host, answering every request with status 200 and [body]. *)
Definition hostWith (body : JsValue) : Host :=
  mkHost (Date_getTime Examples.host) (parseFloat Examples.host)
         (Number_ofString Examples.host) (Number_toString Examples.host)
         (toISOString Examples.host)
         (fun _ _ => Ok (Some (mkResponse 200 body))).

(** The sample host with a backend that answers a history request with
    one row whose single channel is named after the [avg] parameter it
    received. *)
Definition echoAvgHost : Host :=
  mkHost (Date_getTime Examples.host) (parseFloat Examples.host)
         (Number_ofString Examples.host) (Number_toString Examples.host)
         (toISOString Examples.host)
         (fun _ params =>
            Ok (Some (mkResponse 200
              (JObj [ ("histdata", JArr [
                 JObj [ ("datetime", JStr "1/1/2024 12:00:00 AM");
                        (default "none" (alookup "avg" params), JNum 1) ] ]) ])))).

(** A history that is a single object instead of an array of rows. *)
Definition objectHistory : JsValue :=
  JObj [ ("histdata", JObj [ ("datetime", JStr "1/1/2024 12:00:00 AM");
                             ("Ping", JNum 1) ]) ].

(** A sensor list that is a single object. *)
Definition singleSensor : JsValue :=
  JObj [ ("sensors", JObj [ ("objid", JNum 42); ("sensor", JStr "Ping") ]) ].

Definition annotationQuery (limit : option float) : Annotations.AnnotationQuery :=
  Annotations.mkAnnotationQuery "42" 1704067200000 1704240000000 limit.

Definition plainQuery : MyQuery :=
  mkQuery Metrics "Core" "Router" "Ping" "42" None None None None None "A"
          None None None None None None.

(** Two queries whose sensor and channel components run together. *)
Definition joinedSensor : MyQuery :=
  mkQuery Metrics "" "" "" "1_2" None None None None None "A" (Some true)
          None None None None None.

Definition splitSensor : MyQuery :=
  mkQuery Metrics "" "" "" "1" (Some "2") None None None None "A" (Some true)
          None None None None None.

End Samples.

(** * Properties *)

Import DataSource.

(** ** Dispatch *)

Lemma isRegularTarget_negb (query : MyQuery) :
  isRegularTarget query = negb (isStreamingTarget query).
Proof.
  unfold isRegularTarget, isStreamingTarget.
  by rewrite negb_andb.
Qed.

Lemma isStreamingTarget_true (query : MyQuery) :
  isStreamingTarget query = true
  <-> isStreaming query = Some true /\ queryType query = Metrics.
Proof.
  unfold isStreamingTarget, flag, QueryType_eqb.
  rewrite andb_true_iff, bool_decide_eq_true.
  destruct (isStreaming query) as [[|]|]; simpl;
    (split; [intros [? ?] | intros [? ?]]; try discriminate; auto).
Qed.

Lemma filter_split_Permutation {A} (f : A -> bool) (l : list A) :
  l ≡ₚ (List.filter f l ++ List.filter (fun a => negb (f a)) l)%list.
Proof.
  induction l as [|a l IH]; simpl; [done|].
  destruct (f a); simpl.
  - by constructor.
  - by apply Permutation_cons_app.
Qed.

(** C1: the dispatcher sends a query to the streaming set exactly when
    [isStreaming] is [true] and [queryType] is [Metrics], every other query
    (a streaming Raw query among them) to the regular set, and the two sets
    split the batch: no query is in both, every query is in one, and
    together they hold the batch's queries, each as often as the batch. *)
Theorem dispatch_partition (targets : list MyQuery) :
  (forall q, In q (streamingTargets targets)
     <-> In q targets /\ isStreaming q = Some true /\ queryType q = Metrics)
  /\ (forall q, In q (regularTargets targets)
        <-> In q targets /\ ~ (isStreaming q = Some true /\ queryType q = Metrics))
  /\ (forall q, ~ (In q (streamingTargets targets) /\ In q (regularTargets targets)))
  /\ (forall q, In q targets
        <-> In q (streamingTargets targets) \/ In q (regularTargets targets))
  /\ targets ≡ₚ (streamingTargets targets ++ regularTargets targets)%list
  /\ (forall q, In q targets -> isStreaming q = Some true -> queryType q = Raw
        -> In q (regularTargets targets) /\ ~ In q (streamingTargets targets)).
Proof.
  assert (Hs : forall q, In q (streamingTargets targets)
     <-> In q targets /\ isStreaming q = Some true /\ queryType q = Metrics).
  { intro q. unfold streamingTargets.
    by rewrite filter_In, isStreamingTarget_true. }
  assert (Hr : forall q, In q (regularTargets targets)
     <-> In q targets /\ ~ (isStreaming q = Some true /\ queryType q = Metrics)).
  { intro q. unfold regularTargets.
    rewrite filter_In, isRegularTarget_negb, negb_true_iff.
    rewrite <- isStreamingTarget_true.
    destruct (isStreamingTarget q); split; intros [? Hn]; split; auto;
      try discriminate; try (intros Ht; discriminate Ht).
    exfalso; by apply Hn. }
  split_and!; try done.
  - intros q [H1 H2]. apply Hs in H1. apply Hr in H2. tauto.
  - intro q. rewrite Hs, Hr.
    destruct (decide (isStreaming q = Some true /\ queryType q = Metrics)); tauto.
  - unfold streamingTargets, regularTargets.
    rewrite (filter_split_Permutation isStreamingTarget targets) at 1.
    f_equiv. apply reflexive_eq.
    apply filter_ext. intro q. by rewrite isRegularTarget_negb.
  - intros q Hin Hst Hraw. rewrite Hs, Hr.
    split; [split; [done | intros [? ?]; congruence] |].
    intros (? & ? & ?); congruence.
Qed.

(** ** Resolution selection *)

(** The threshold chain on its own: its result is one of the eight
    buckets, it is the first-match scan of the descending strict
    thresholds, and at exactly 48 hours it gives 300. *)
Lemma avg_selection (hours : float) :
  In (Api.getSensorHistory_avg hours) Policy.buckets
  /\ Api.getSensorHistory_avg hours = Policy.selectBucketSeconds hours
  /\ Api.getSensorHistory_avg 48 = "300"
  /\ Api.hoursBetween 1704067200000 1704240000000 = 48%float
  /\ Api.getSensorHistory_avg (Api.hoursBetween 1704067200000 1704240000000) = "300".
Proof.
  split_and!; try reflexivity.
  - unfold Api.getSensorHistory_avg, Policy.buckets.
    repeat (case (gt hours _); [simpl; tauto|]). simpl; tauto.
  - unfold Api.getSensorHistory_avg, Policy.selectBucketSeconds, Policy.thresholds.
    simpl. repeat (case (gt hours _); [reflexivity|]). reflexivity.
Qed.

(** C2: the [avg] parameter of a history request is the threshold chain
    (one of the eight buckets, first match of the descending strict
    thresholds) applied to the hours between the two instants that
    [new Date] reads back from the [sdate] and [edate] strings.  Those
    strings are the reformatted ones ([2024-01-01T00-00-00]), so on a host
    that does not read them as dates the hours are [NaN] and the request
    carries [avg = 0] whatever the range: for the range 2024-01-01 to
    2024-01-03, which is 48 hours and for which the chain gives 300, as the
    annotation path computes it from the numeric instants, the request of
    the regular path carries 0 (a backend that names its channel after the
    [avg] it receives returns the series ["0"]). *)
Theorem history_request_avg_ignores_range :
  (forall (h : Host) (sensorId : float) (startDate endDate : string),
     alookup "avg" (Api.historyParams h sensorId startDate endDate)
     = Some (Policy.selectBucketSeconds
               (Api.hoursBetween (Date_getTime h (JStr startDate))
                                 (Date_getTime h (JStr endDate))))
     /\ In (Policy.selectBucketSeconds
              (Api.hoursBetween (Date_getTime h (JStr startDate))
                                (Date_getTime h (JStr endDate))))
           Policy.buckets)
  /\ (forall (h : Host) (sensorId : float) (startDate endDate : string),
        Date_getTime h (JStr startDate) = nan ->
        Date_getTime h (JStr endDate) = nan ->
        alookup "avg" (Api.historyParams h sensorId startDate endDate) = Some "0")
  /\ formatDate Examples.host (from Examples.range48h) = Ok "2024-01-01T00-00-00"
  /\ formatDate Examples.host (to Examples.range48h) = Ok "2024-01-03T00-00-00"
  /\ Api.hoursBetween (from Examples.range48h) (to Examples.range48h) = 48%float
  /\ Policy.selectBucketSeconds 48 = "300"
  /\ getAnnotations_avg
       (annotationHours (from Examples.range48h) (to Examples.range48h)) = "300"
  /\ alookup "avg"
       (Api.historyParams Examples.host
          (Number_ofString Examples.host "42")
          "2024-01-01T00-00-00" "2024-01-03T00-00-00")
     = Some "0"
  /\ List.map frameName
       (regularFrames Samples.echoAvgHost Examples.range48h [Samples.plainQuery])
     = [ "0" ].
Proof.
  assert (Hchain : forall hours,
            Api.getSensorHistory_avg hours = Policy.selectBucketSeconds hours).
  { intros hours.
    unfold Api.getSensorHistory_avg, Policy.selectBucketSeconds, Policy.thresholds.
    simpl. repeat (case (gt hours _); [reflexivity|]). reflexivity. }
  assert (Hlink : forall h sensorId startDate endDate,
            alookup "avg" (Api.historyParams h sensorId startDate endDate)
            = Some (Api.getSensorHistory_avg
                      (Api.hoursBetween (Date_getTime h (JStr startDate))
                                        (Date_getTime h (JStr endDate))))).
  { reflexivity. }
  split_and!; try reflexivity.
  - intros h sensorId startDate endDate. rewrite Hlink, Hchain. split; [done|].
    rewrite <- Hchain. unfold Api.getSensorHistory_avg, Policy.buckets.
    repeat (case (gt _ _); [simpl; tauto|]). simpl; tauto.
  - intros h sensorId startDate endDate Hs He.
    rewrite Hlink, Hs, He. reflexivity.
Qed.

(** C3, as the claim states it, fails: a range of exactly 24 hours is above
    the 12 hour threshold, so it selects 120 and not 0. *)
Lemma avg_24h_is_not_0 :
  Api.getSensorHistory_avg 24 = "120" /\ Api.getSensorHistory_avg 24 <> "0".
Proof. split; [reflexivity | discriminate]. Qed.

(** C3, amended: at each threshold (12, 24, 48, 72, 168, 336, 720 hours)
    the selection is the bucket below it, at the next number above the
    threshold it is the bucket of the threshold; a range of 24 hours yields
    120 (not 300), a range of 24.0001 hours yields 300. *)
Theorem avg_boundaries :
  Api.getSensorHistory_avg 12 = "0"
  /\ Api.getSensorHistory_avg 24 = "120"
  /\ Api.getSensorHistory_avg 48 = "300"
  /\ Api.getSensorHistory_avg 72 = "600"
  /\ Api.getSensorHistory_avg 168 = "900"
  /\ Api.getSensorHistory_avg 336 = "1800"
  /\ Api.getSensorHistory_avg 720 = "3600"
  /\ List.map (fun tb => Api.getSensorHistory_avg (PrimFloat.next_up tb.1))
              Policy.thresholds
     = List.map snd Policy.thresholds
  /\ Api.getSensorHistory_avg 24.0001 = "300".
Proof. split_and!; reflexivity. Qed.

(** C9: the selection in [getSensorHistory] and the one in
    [getAnnotations] return the same bucket for every number of hours, and
    both derive the hours from the two instants in the same way. *)
Theorem avg_call_sites_agree (hours : float) :
  Api.getSensorHistory_avg hours = getAnnotations_avg hours
  /\ forall fromMs toMs,
       Api.getSensorHistory_avg (Api.hoursBetween fromMs toMs)
       = getAnnotations_avg (annotationHours fromMs toMs).
Proof.
  split; [|intros fromMs toMs; unfold Api.hoursBetween, annotationHours];
    unfold Api.getSensorHistory_avg, getAnnotations_avg;
    repeat (case (gt _ _); [reflexivity|]); reflexivity.
Qed.

(** ** History rows *)






(** ** Stream identifiers *)

Lemma append_empty_r (s : string) : s ++ "" = s.
Proof.
  induction s as [|a s IH]; [done|].
  change (String a (s ++ "") = String a s). by f_equal.
Qed.

Lemma append_assoc (s1 s2 s3 : string) : (s1 ++ s2) ++ s3 = s1 ++ s2 ++ s3.
Proof.
  induction s1 as [|a s1 IH]; [done|].
  change (String a ((s1 ++ s2) ++ s3) = String a (s1 ++ s2 ++ s3)). by f_equal.
Qed.

Lemma panelComponent_truthy (p : option PanelId) :
  componentTruthy (panelComponent p) = true.
Proof.
  destruct p as [[s|n]|]; simpl; [| |done].
  - by destruct (strTruthy s) eqn:Hs.
  - by destruct (numTruthy n) eqn:Hn.
Qed.

Lemma strOr_empty (s : string) : strOr s "" = s.
Proof. by destruct s. Qed.

Lemma strOr_truthy (s d : string) :
  strTruthy d = true -> strTruthy (strOr s d) = true.
Proof. unfold strOr. by destruct (strTruthy s) eqn:Hs. Qed.

Lemma components_channelPart (query : MyQuery) :
  components query
  = [ panelComponent (panelId query); CStr (strOr (refId query) "A");
      CStr (sensorId query); CStr (channelPart query) ].
Proof.
  unfold components, channelPart.
  rewrite strOr_empty.
  destruct (channelArray query); [done|].
  by rewrite strOr_empty.
Qed.

(** The identifier written out: panel and reference always present, the
    sensor and channel parts only when they are not empty. *)
Lemma getStreamId_closed_form (h : Host) (query : MyQuery) :
  getStreamId h query
  = componentString h (panelComponent (panelId query)) ++ "_"
      ++ strOr (refId query) "A" ++ optPart (sensorId query)
      ++ optPart (channelPart query).
Proof.
  unfold getStreamId. rewrite components_channelPart.
  cbn [List.filter]. rewrite panelComponent_truthy.
  cbn [componentTruthy]. rewrite (strOr_truthy (refId query) "A") by done.
  assert (Hne : exists a r, strOr (refId query) "A" = String a r).
  { unfold strOr. destruct (refId query); simpl; eauto. }
  destruct Hne as (a & r & ->).
  unfold optPart.
  destruct (sensorId query) as [|a1 s1]; destruct (channelPart query) as [|a2 s2];
    cbn [strTruthy List.map componentString String.concat];
    by rewrite ?append_empty_r, ?append_assoc.
Qed.

(** C6: the stream identifier is a function of the derivation inputs
    alone: two queries with the same [panelId], [refId], [sensorId] and
    channel array (or channel) get the same string, whatever their other
    members.  The components are joined with ["_"], the empty sensor and
    channel components being left out, and a query without [panelId] gets
    the component ["default"] in its place. *)
Theorem getStreamId_deterministic (h : Host) (q1 q2 : MyQuery) :
  sameStreamInputs q1 q2 ->
  getStreamId h q1 = getStreamId h q2
  /\ getStreamId h q1
     = componentString h (panelComponent (panelId q1)) ++ "_"
         ++ strOr (refId q1) "A" ++ optPart (sensorId q1)
         ++ optPart (channelPart q1)
  /\ (panelId q1 = None ->
      getStreamId h q1
      = "default" ++ "_" ++ strOr (refId q1) "A" ++ optPart (sensorId q1)
          ++ optPart (channelPart q1))
  /\ getStreamId h Examples.streamQuery = "1_A_42_ch1".
Proof.
  intros (Hp & Hr & Hs & Hc).
  split_and!.
  - rewrite !getStreamId_closed_form. by rewrite Hp, Hr, Hs, Hc.
  - apply getStreamId_closed_form.
  - intros Hnone. rewrite getStreamId_closed_form. by rewrite Hnone.
  - reflexivity.
Qed.

Lemma getStreamId_deterministic_witness :
  getStreamId Examples.host Examples.streamQueryNoPanel
  = getStreamId Examples.host Examples.streamQueryOther
  /\ getStreamId Examples.host Examples.streamQueryNoPanel = "default_A_42_ch1".
Proof.
  destruct (getStreamId_deterministic Examples.host
              Examples.streamQueryNoPanel Examples.streamQueryOther)
    as (Heq & _ & Hdefault & _).
  - repeat split; reflexivity.
  - split; [exact Heq | exact (Hdefault eq_refl)].
Defined.

(** ** Streaming frames *)

(** C8, as the claim states it, fails: a frame that arrives without [meta]
    is forwarded as it came, without any of the three tags. *)
Lemma enhance_skips_frame_without_meta :
  enhanceResponse (getStreamId Examples.host Examples.streamQuery)
                  (Some [Some Examples.bareFrame])
  = [Some Examples.bareFrame]
  /\ meta Examples.bareFrame = None.
Proof. split; reflexivity. Qed.

Lemma streamingMeta_lookup (streamId : string) (m : gmap string JsValue) :
  streamingMeta streamId m !! "streaming" = Some (JBool true)
  /\ streamingMeta streamId m !! "streamId" = Some (JStr streamId)
  /\ streamingMeta streamId m !! "preferredVisualisationType" = Some (JStr "graph")
  /\ forall k, k <> "streaming" -> k <> "streamId" ->
               k <> "preferredVisualisationType" ->
               streamingMeta streamId m !! k = m !! k.
Proof.
  unfold streamingMeta. split_and!.
  - rewrite lookup_insert_ne by done. rewrite lookup_insert_ne by done.
    by rewrite lookup_insert_eq.
  - rewrite lookup_insert_ne by done. by rewrite lookup_insert_eq.
  - by rewrite lookup_insert_eq.
  - intros k H1 H2 H3. by rewrite !lookup_insert_ne.
Qed.

(** C8, amended: every frame that arrives with a [meta] member is
    forwarded with [streaming = true], the derived stream identifier and
    [preferredVisualisationType = "graph"] in its metadata, its other
    metadata and members unchanged; a frame without [meta] is forwarded
    unchanged, and no frame is dropped or reordered. *)
Theorem enhance_tags_frames_with_meta (h : Host) (query : MyQuery)
    (responseData : option (list (option DataFrame))) (i : nat)
    (f : DataFrame) (m : gmap string JsValue) :
  default [] responseData !! i = Some (Some f) ->
  meta f = Some m ->
  exists m',
    enhanceResponse (getStreamId h query) responseData !! i
    = Some (Some (mkFrame (frameRefId f) (frameName f) (fields f) (Some m')))
    /\ m' !! "streaming" = Some (JBool true)
    /\ m' !! "streamId" = Some (JStr (getStreamId h query))
    /\ m' !! "preferredVisualisationType" = Some (JStr "graph")
    /\ (forall k, k <> "streaming" -> k <> "streamId" ->
                  k <> "preferredVisualisationType" -> m' !! k = m !! k)
    /\ length (enhanceResponse (getStreamId h query) responseData)
       = length (default [] responseData)
    /\ (forall j g, default [] responseData !! j = Some (Some g) ->
                    meta g = None ->
                    enhanceResponse (getStreamId h query) responseData !! j
                    = Some (Some g)).
Proof.
  intros Hi Hm.
  exists (streamingMeta (getStreamId h query) m).
  destruct (streamingMeta_lookup (getStreamId h query) m) as (H1 & H2 & H3 & H4).
  unfold enhanceResponse.
  split_and!; try done.
  - change (List.map ?g ?l) with (g <$> l).
    rewrite list_lookup_fmap, Hi. simpl. by rewrite Hm.
  - by rewrite length_map.
  - intros j g Hj Hg. change (List.map ?g ?l) with (g <$> l).
    rewrite list_lookup_fmap, Hj. simpl. by rewrite Hg.
Qed.

Lemma enhance_tags_frames_with_meta_witness :
  exists m',
    enhanceResponse (getStreamId Examples.host Examples.streamQuery)
      (Some [Some Examples.bareFrame; Some Examples.liveFrame]) !! 1%nat
    = Some (Some (mkFrame "A" "Ping" (fields Examples.liveFrame) (Some m')))
    /\ m' !! "streaming" = Some (JBool true)
    /\ m' !! "streamId" = Some (JStr "1_A_42_ch1")
    /\ m' !! "preferredVisualisationType" = Some (JStr "graph").
Proof.
  destruct (enhance_tags_frames_with_meta Examples.host Examples.streamQuery
              (Some [Some Examples.bareFrame; Some Examples.liveFrame]) 1
              Examples.liveFrame {[ "custom" := JStr "x" ]})
    as (m' & H0 & H1 & H2 & H3 & _).
  - reflexivity.
  - reflexivity.
  - exists m'. split_and!; [exact H0 | exact H1 | exact H2 | exact H3].
Defined.

(** ** Association lists *)

Lemma alookup_None {V} (k : string) (l : list (string * V)) :
  alookup k l = None <-> ~ In k l.*1.
Proof.
  induction l as [|[k' v] l IH]; simpl; [tauto|].
  destruct (String.eqb_spec k' k) as [->|Hne]; [split; [discriminate | tauto]|].
  rewrite IH. tauto.
Qed.

Lemma alookup_app {V} (k : string) (l1 l2 : list (string * V)) :
  alookup k (l1 ++ l2)
  = match alookup k l1 with Some v => Some v | None => alookup k l2 end.
Proof.
  induction l1 as [|[k' v] l1 IH]; simpl; [done|].
  by destruct (String.eqb k' k).
Qed.

Lemma aset_absent {V} (k : string) (v : V) (l : list (string * V)) :
  ~ In k l.*1 -> aset k v l = (l ++ [(k, v)])%list.
Proof.
  induction l as [|[k' v'] l IH]; simpl; [done|].
  intros Hn. destruct (String.eqb_spec k' k) as [->|Hne]; [tauto|].
  rewrite IH; [done | tauto].
Qed.

Lemma apush_keys {V} (k : string) (x : V) (l : list (string * list V)) :
  List.map (fun kv => (kv.1, kv.1)) (apush k x l)
  = List.map (fun kv => (kv.1, kv.1)) l
  /\ (apush k x l).*1 = l.*1.
Proof.
  induction l as [|[k' xs] l [IH1 IH2]]; simpl; [done|].
  destruct (String.eqb k' k); simpl; [done|].
  split; f_equal; [exact IH1 | exact IH2].
Qed.

Lemma alookup_apush {V} (k k' : string) (x : V) (l : list (string * list V)) :
  alookup k (apush k' x l)
  = if String.eqb k' k then (fun xs => xs ++ [x])%list <$> alookup k' l
    else alookup k l.
Proof.
  induction l as [|[k0 xs] l IH]; simpl.
  - by destruct (String.eqb k' k).
  - destruct (String.eqb k0 k') eqn:E0; simpl.
    + apply String.eqb_eq in E0 as ->.
      by destruct (String.eqb k' k).
    + rewrite IH.
      destruct (String.eqb k0 k) eqn:E1; [|done].
      apply String.eqb_eq in E1 as ->.
      rewrite String.eqb_sym in E0. by rewrite E0.
Qed.

Lemma alookup_labels {V} (k : string) (l : list (string * V)) :
  alookup k (List.map (fun kv => (kv.1, kv.1)) l) = (fun _ => k) <$> alookup k l.
Proof.
  induction l as [|[k' v] l IH]; simpl; [done|].
  by destruct (String.eqb_spec k' k) as [->|Hne].
Qed.

Lemma extendCol_app (col : option (list float)) (l1 l2 : list float) :
  extendCol (extendCol col l1) l2 = extendCol col (l1 ++ l2).
Proof.
  destruct l1 as [|a l1]; simpl; [done|].
  destruct l2 as [|b l2]; simpl; [by rewrite app_nil_r|].
  by rewrite <- app_assoc.
Qed.

(** ** Normalization: the accumulator after each step *)


Lemma rowSamples_cons (h : Host) (k : string) (e : string * JsValue)
    (es : list (string * JsValue)) :
  rowSamples h k (e :: es) = (rowSamples h k [e] ++ rowSamples h k es)%list.
Proof. unfold rowSamples. simpl. by rewrite app_nil_r. Qed.

Lemma pushSample_spec (h : Host) (st : NormState) (key : string) (value : JsValue) :
  wfNorm st ->
  (key <> "datetime" -> inherited key = false) ->
  exists st',
    pushSample h st (key, value) = Ok st'
    /\ wfNorm st' /\ times st' = times st
    /\ forall k, alookup k (values st')
                 = extendCol (alookup k (values st)) (rowSamples h k [(key, value)]).
Proof.
  intros [Hnd Hlab] Hsafe. unfold pushSample, rowSamples. simpl.
  destruct (String.eqb key "datetime") eqn:Edt.
  { exists st. by repeat split. }
  rewrite Hsafe by (by apply String.eqb_neq).
  destruct (alookup key (values st)) as [xs|] eqn:Hl; eexists; (split; [reflexivity|]); simpl.
  - destruct (apush_keys key (coerce h value) (values st)) as [Hk1 Hk2].
    split_and!; [split; simpl | done |].
    + by rewrite Hk2.
    + by rewrite Hk1.
    + intros k. rewrite alookup_apush, Hl.
      destruct (String.eqb key k) eqn:Ek; simpl; [|done].
      apply String.eqb_eq in Ek as <-. by rewrite Hl.
  - assert (Hnin : ~ In key (values st).*1) by (by apply alookup_None).
    assert (Hnin' : ~ In key (channelLabels st).*1).
    { rewrite Hlab. intros Hin. apply Hnin.
      apply in_map_iff in Hin as ([k1 k2] & <- & Hin).
      apply in_map_iff in Hin as ([k3 v] & [= <- <-] & Hin).
      apply in_map_iff. by exists (k3, v). }
    rewrite (aset_absent key [] (values st) Hnin).
    rewrite (aset_absent key key (channelLabels st) Hnin').
    destruct (apush_keys key (coerce h value) (values st ++ [(key, [])]))
      as [Hk1 Hk2].
    split_and!; [split; simpl | done |].
    + rewrite Hk2, fmap_app. simpl. apply NoDup_app. split_and!; [done| |].
      * intros x Hx [->|[]]%list_elem_of_In. apply Hnin. by apply list_elem_of_In.
      * apply NoDup_singleton.
    + rewrite Hk1, map_app, Hlab. done.
    + intros k. rewrite alookup_apush, !alookup_app, Hl. simpl.
      rewrite String.eqb_refl. simpl.
      destruct (String.eqb key k) eqn:Ek; simpl.
      * apply String.eqb_eq in Ek as <-. by rewrite Hl.
      * by destruct (alookup k (values st)).
Qed.

Lemma entries_spec (h : Host) (es : list (string * JsValue)) (st : NormState) :
  wfNorm st ->
  (forall e, In e es -> e.1 <> "datetime" -> inherited e.1 = false) ->
  exists st',
    forEach (pushSample h) st es = Ok st'
    /\ wfNorm st' /\ times st' = times st
    /\ forall k, alookup k (values st')
                 = extendCol (alookup k (values st)) (rowSamples h k es).
Proof.
  revert st. induction es as [|[key value] es IH]; intros st Hwf Hsafe.
  { exists st. split_and!; done. }
  destruct (pushSample_spec h st key value Hwf) as (st1 & Hstep & Hwf1 & Ht1 & Hv1).
  { apply (Hsafe (key, value)). by left. }
  destruct (IH st1 Hwf1) as (st2 & Hrest & Hwf2 & Ht2 & Hv2).
  { intros e He. apply Hsafe. by right. }
  exists st2. cbn [forEach]. rewrite Hstep. cbn [bind].
  split_and!; [done | done | congruence |].
  intros k. rewrite Hv2, Hv1, extendCol_app. by rewrite <- rowSamples_cons.
Qed.

Lemma processRow_spec (h : Host) (props : list (string * JsValue)) (st : NormState) :
  wfNorm st -> rowSafe props ->
  exists st',
    processRow h st (JObj props) = Ok st'
    /\ wfNorm st'
    /\ times st' = (times st ++ rowTimes h props)%list
    /\ forall k, alookup k (values st')
                 = extendCol (alookup k (values st)) (keptSamples h k props).
Proof.
  intros Hwf Hsafe. unfold processRow, rowTimes, keptSamples. simpl.
  fold (rowDatetime props). fold (rowKept props).
  destruct (rowKept props) eqn:Hkept.
  - destruct (entries_spec h props
                (mkNorm (times st ++ [Date_getTime h (rowDatetime props)])
                        (values st) (channelLabels st)))
      as (st' & Hrun & Hwf' & Ht' & Hv'); [done | by apply Hsafe |].
    exists st'. split_and!; done.
  - exists st. rewrite app_nil_r. split_and!; done.
Qed.

Lemma rows_spec (h : Host) (rows : list (list (string * JsValue))) (st : NormState) :
  wfNorm st -> Forall rowSafe rows ->
  exists st',
    forEach (processRow h) st (JObj <$> rows) = Ok st'
    /\ wfNorm st'
    /\ times st' = (times st ++ List.flat_map (rowTimes h) rows)%list
    /\ forall k, alookup k (values st')
                 = extendCol (alookup k (values st))
                             (List.flat_map (keptSamples h k) rows).
Proof.
  revert st. induction rows as [|props rows IH]; intros st Hwf Hsafe.
  { exists st. rewrite app_nil_r. split_and!; done. }
  apply Forall_cons in Hsafe as [Hsafe1 Hsafe].
  destruct (processRow_spec h props st Hwf Hsafe1) as (st1 & Hstep & Hwf1 & Ht1 & Hv1).
  destruct (IH st1 Hwf1 Hsafe) as (st2 & Hrest & Hwf2 & Ht2 & Hv2).
  exists st2. cbn [fmap list_fmap forEach]. rewrite Hstep. cbn [bind].
  split_and!; [done | done | |].
  - rewrite Ht2, Ht1. simpl. by rewrite <- app_assoc.
  - intros k. rewrite Hv2, Hv1, extendCol_app. done.
Qed.

(** ** Own key order *)

Lemma indexKeys_snd (keys : list string) :
  (indexKeys keys).*2
  = List.filter (fun k => bool_decide (is_Some (arrayIndex k))) keys.
Proof.
  unfold indexKeys. induction keys as [|k keys IH]; [done|].
  cbn [omap list_omap List.filter].
  destruct (arrayIndex k) as [n|]; cbn; [by f_equal | done].
Qed.

Lemma ownKeysOrder_Permutation (keys : list string) : ownKeysOrder keys ≡ₚ keys.
Proof.
  unfold ownKeysOrder.
  rewrite merge_sort_Permutation, indexKeys_snd.
  symmetry. apply filter_split_Permutation.
Qed.

(** ** Rows that share their keys *)

Lemma rowSamples_datetime (h : Host) (es : list (string * JsValue)) :
  rowSamples h "datetime" es = [].
Proof.
  unfold rowSamples. induction es as [|[k v] es IH]; simpl; [done|].
  rewrite IH. by destruct (String.eqb k "datetime").
Qed.

Lemma rowSamples_absent (h : Host) (k : string) (es : list (string * JsValue)) :
  ~ In k es.*1 -> rowSamples h k es = [].
Proof.
  unfold rowSamples. induction es as [|[k' v] es IH]; simpl; [done|].
  intros Hn. rewrite IH by tauto.
  destruct (String.eqb k' "datetime"); [done|].
  destruct (String.eqb_spec k' k) as [->|Hne]; [tauto | done].
Qed.

Lemma rowSamples_NoDup (h : Host) (k : string) (es : list (string * JsValue)) :
  k <> "datetime" -> NoDup es.*1 -> In k es.*1 ->
  rowSamples h k es = [coerce h (default JUndefined (alookup k es))].
Proof.
  intros Hk. induction es as [|[k' v] es IH]; [done|].
  rewrite fmap_cons, NoDup_cons. intros [Hnin Hnd] Hin.
  rewrite rowSamples_cons. unfold rowSamples at 1. cbn.
  destruct (String.eqb_spec k' k) as [->|Hne].
  - rewrite (proj2 (String.eqb_neq _ _) Hk). cbn.
    rewrite rowSamples_absent; [done|].
    intros Hin'. apply Hnin. by apply list_elem_of_In.
  - destruct Hin as [Heq|Hin]; [done|].
    rewrite IH by done. by destruct (String.eqb k' "datetime").
Qed.

Lemma keptSamples_shared (h : Host) (k : string) (keys : list string)
    (rows : list (list (string * JsValue))) :
  sharedKeys keys rows -> In k (channelKeys keys) ->
  List.flat_map (keptSamples h k) rows = column h k rows.
Proof.
  intros Hshared Hk. apply filter_In in Hk as [Hin Hne].
  apply negb_true_iff, String.eqb_neq in Hne.
  induction Hshared as [|props rows (Hnd & Hperm & Hkept) _ IH]; [done|].
  simpl. rewrite IH. unfold keptSamples. rewrite Hkept.
  rewrite rowSamples_NoDup; [done | done | done |].
  apply list_elem_of_In. rewrite Hperm. by apply list_elem_of_In.
Qed.

Lemma keptSamples_other (h : Host) (k : string) (keys : list string)
    (rows : list (list (string * JsValue))) :
  sharedKeys keys rows -> ~ In k (channelKeys keys) ->
  List.flat_map (keptSamples h k) rows = [].
Proof.
  intros Hshared Hk.
  induction Hshared as [|props rows (Hnd & Hperm & Hkept) _ IH]; [done|].
  simpl. rewrite IH, app_nil_r. unfold keptSamples. rewrite Hkept.
  destruct (String.eqb_spec k "datetime") as [->|Hne].
  - apply rowSamples_datetime.
  - apply rowSamples_absent. intros Hin. apply Hk, filter_In. split.
    + apply list_elem_of_In. rewrite <- Hperm. by apply list_elem_of_In.
    + by apply negb_true_iff, String.eqb_neq.
Qed.

Lemma sharedKeys_times (h : Host) (keys : list string)
    (rows : list (list (string * JsValue))) :
  sharedKeys keys rows ->
  List.flat_map (rowTimes h) rows
  = List.map (fun props => Date_getTime h (rowDatetime props)) rows.
Proof.
  induction 1 as [|props rows (Hnd & Hperm & Hkept) _ IH]; [done|].
  simpl. rewrite IH. unfold rowTimes. by rewrite Hkept.
Qed.

Lemma sharedKeys_safe (keys : list string) (rows : list (list (string * JsValue))) :
  sharedKeys keys rows ->
  (forall k, In k keys -> k <> "datetime" -> inherited k = false) ->
  Forall rowSafe rows.
Proof.
  intros Hshared Hkeys. eapply Forall_impl; [exact Hshared|].
  intros props (Hnd & Hperm & Hkept) _ e He Hne. simpl.
  apply Hkeys; [|done].
  apply list_elem_of_In. rewrite <- Hperm.
  apply list_elem_of_In, in_map_iff. by exists e.
Qed.

Lemma channelFrame_axis (target : MyQuery) (st : NormState) (f : DataFrame) :
  In f (channelFrames target st) -> timeAxis f = Some (times st).
Proof.
  unfold channelFrames. intros (k & <- & _)%in_map_iff. reflexivity.
Qed.

Lemma wfNorm_empty : wfNorm emptyNorm.
Proof. split; [apply NoDup_nil_2 | done]. Qed.

Lemma extendCol_None (l : list float) :
  extendCol None l = match l with [] => None | _ => Some l end.
Proof. by destruct l. Qed.

Lemma column_nonempty (h : Host) (k : string) (rows : list (list (string * JsValue))) :
  rows <> [] -> column h k rows <> [].
Proof. by destruct rows. Qed.

(** C4, as the claim states it, fails: when a channel key is missing from
    a row, the series of one response differ in length.  Here the second
    row alone reports [Loss]: the series [Ping] has two samples, the series
    [Loss] one, next to a time axis of two instants. *)
Lemma ragged_rows_series_lengths_differ :
  exists st,
    normalizeRows Examples.host Examples.raggedRows = Ok st
    /\ List.map samples (channelFrames (Examples.metricsQuery "A" "42") st)
       = [ Some [1; 4]; Some [3] ]%float
    /\ List.map timeAxis (channelFrames (Examples.metricsQuery "A" "42") st)
       = [ Some [1704067200000; 1704153600000];
           Some [1704067200000; 1704153600000] ]%float.
Proof. eexists. split_and!; reflexivity. Qed.

(** A channel key that names an inherited property aborts the
    normalization of the whole response: the [push] throws. *)
Lemma inherited_key_aborts_normalization :
  normalizeRows Examples.host [Examples.prototypeRow]
  = Throw "TypeError: values[key].push is not a function".
Proof. reflexivity. Qed.

(** C4, amended: all series of one response carry the same timestamp
    axis; when every row is a timestamped object and all rows share their
    keys, normalization yields one series per distinct channel key, each
    with as many samples as there are rows, in row order, the time axis
    having that length too. *)
Theorem normalize_shared_keys (h : Host) (target : MyQuery) (keys : list string)
    (rows : list (list (string * JsValue))) :
  rows <> [] ->
  sharedKeys keys rows ->
  (forall k, In k keys -> k <> "datetime" -> inherited k = false) ->
  exists st,
    normalizeRows h (JObj <$> rows) = Ok st
    /\ times st = List.map (fun props => Date_getTime h (rowDatetime props)) rows
    /\ NoDup (channelKeys keys)
    /\ channelFrames target st
       ≡ₚ List.map (seriesOf h target (times st) rows) (channelKeys keys)
    /\ (forall f, In f (channelFrames target st) ->
          timeAxis f = Some (times st)
          /\ length <$> timeAxis f = Some (length rows)
          /\ length <$> samples f = Some (length rows)
          /\ exists k, In k (channelKeys keys) /\ samples f = Some (column h k rows))
    /\ (forall rows' st' f, normalizeRows h rows' = Ok st' ->
          In f (channelFrames target st') -> timeAxis f = Some (times st')).
Proof.
  intros Hne Hshared Hkeys.
  destruct (rows_spec h rows emptyNorm wfNorm_empty
              (sharedKeys_safe keys rows Hshared Hkeys))
    as (st & Hrun & [Hnd Hlab] & Ht & Hv).
  simpl in Ht. rewrite (sharedKeys_times h keys rows Hshared) in Ht.
  exists st.
  assert (HndK : NoDup (channelKeys keys)).
  { destruct rows as [|props rows]; [done|].
    apply Forall_cons in Hshared as [(Hnd1 & Hperm & _) _].
    apply NoDup_ListNoDup, List.NoDup_filter, NoDup_ListNoDup.
    by rewrite <- Hperm. }
  assert (Hcol : forall k, In k (channelKeys keys) ->
                 alookup k (values st) = Some (column h k rows)).
  { intros k Hk. rewrite Hv. simpl. rewrite extendCol_None.
    rewrite (keptSamples_shared h k keys rows Hshared Hk).
    pose proof (column_nonempty h k rows Hne). by destruct (column h k rows). }
  assert (Hno : forall k, ~ In k (channelKeys keys) -> alookup k (values st) = None).
  { intros k Hk. rewrite Hv. simpl.
    by rewrite (keptSamples_other h k keys rows Hshared Hk). }
  assert (Hperm : (values st).*1 ≡ₚ channelKeys keys).
  { apply NoDup_Permutation; [done | done |].
    intros k. rewrite !list_elem_of_In. split.
    - intros Hin. destruct (in_dec String.string_dec k (channelKeys keys)) as [|Hn]; [done|].
      exfalso. by apply (proj1 (alookup_None k (values st)) (Hno k Hn)).
    - intros Hk.
      destruct (in_dec String.string_dec k (values st).*1) as [|Hn]; [done|].
      apply (alookup_None k (values st)) in Hn. by rewrite Hcol in Hn. }
  assert (Hframe : forall k, In k (channelKeys keys) ->
                   channelFrame target st k = seriesOf h target (times st) rows k).
  { intros k Hk. unfold channelFrame, seriesOf.
    by rewrite Hlab, alookup_labels, (Hcol k Hk). }
  assert (Hframes : channelFrames target st
                    ≡ₚ List.map (seriesOf h target (times st) rows) (channelKeys keys)).
  { unfold channelFrames.
    change (List.map fst (values st)) with ((values st).*1).
    rewrite <- (map_ext_in (channelFrame target st)
                  (seriesOf h target (times st) rows) (channelKeys keys) Hframe).
    change (List.map (channelFrame target st) ?l)
      with (channelFrame target st <$> l).
    by rewrite ownKeysOrder_Permutation, Hperm. }
  split_and!; try done.
  - intros f Hf.
    assert (Hf' : In f (List.map (seriesOf h target (times st) rows) (channelKeys keys))).
    { apply list_elem_of_In. rewrite <- Hframes. by apply list_elem_of_In. }
    apply in_map_iff in Hf' as (k & <- & Hk).
    split_and!.
    + reflexivity.
    + cbn. by rewrite Ht, length_map.
    + cbn. unfold column. by rewrite length_map.
    + exists k. by split.
  - intros rows' st' f _. apply channelFrame_axis.
Qed.

Lemma normalize_shared_keys_witness :
  exists st,
    normalizeRows Examples.host (JObj <$> Examples.uniformRows) = Ok st
    /\ times st = [1704067200000; 1704153600000]%float
    /\ channelFrames (Examples.metricsQuery "A" "42") st
       ≡ₚ List.map (seriesOf Examples.host (Examples.metricsQuery "A" "42")
                      (times st) Examples.uniformRows)
                   [ "Ping"; "Loss" ].
Proof.
  destruct (normalize_shared_keys Examples.host (Examples.metricsQuery "A" "42")
              [ "datetime"; "Ping"; "Loss" ] Examples.uniformRows)
    as (st & Hrun & Htimes & _ & Hframes & _).
  - discriminate.
  - unfold sharedKeys, Examples.uniformRows.
    apply Forall_cons; split; [|apply Forall_cons; split; [|by apply Forall_nil]].
    + split_and!; [by apply (bool_decide_unpack _) | reflexivity | reflexivity].
    + split_and!; [by apply (bool_decide_unpack _)
                  | by apply (bool_decide_unpack _) | reflexivity].
  - intros k [<-|[<-|[<-|[]]]] _; reflexivity.
  - exists st. split_and!; [exact Hrun | exact Htimes | exact Hframes].
Defined.

(** ** Rows without a timestamp *)





(** ** The regular path *)

Lemma regularFrames_app (h : Host) (range : TimeRange) (l1 l2 : list MyQuery) :
  regularFrames h range (l1 ++ l2)
  = (regularFrames h range l1 ++ regularFrames h range l2)%list.
Proof. unfold regularFrames. by rewrite map_app, flat_map_app. Qed.

Lemma resolveTarget_refId (h : Host) (range : TimeRange) (target : MyQuery) :
  resultRefId (resolveTarget h range target) = refId target.
Proof.
  unfold resolveTarget.
  destruct (QueryType_eqb (queryType target) Metrics && strTruthy (sensorId target));
    [|done].
  by destruct (fetchFrames h range target).
Qed.

(** C7: when resolving one query of a regular batch throws, the error is
    caught and that query answers with an empty result under its own
    [refId]; the response of the batch is the one the other queries would
    give without it, so each of them still contributes its series, and
    every result carries the [refId] of its query. *)
Theorem failing_query_isolated (h : Host) (range : TimeRange)
    (pre post : list MyQuery) (target : MyQuery) (e : string) :
  fetchFrames h range target = Throw e ->
  resolveTarget h range target = mkResult (refId target) []
  /\ regularFrames h range (pre ++ target :: post)
     = (regularFrames h range pre ++ regularFrames h range post)%list
  /\ (forall t f, In t (pre ++ post) ->
        In f (resultData (resolveTarget h range t)) ->
        In f (regularFrames h range (pre ++ target :: post)))
  /\ List.map resultRefId (List.map (resolveTarget h range) (pre ++ target :: post))
     = List.map refId (pre ++ target :: post).
Proof.
  intros Hthrow.
  assert (Hempty : resolveTarget h range target = mkResult (refId target) []).
  { unfold resolveTarget. rewrite Hthrow. simpl.
    by destruct (QueryType_eqb (queryType target) Metrics
                 && strTruthy (sensorId target)). }
  assert (Hsplit : regularFrames h range (pre ++ target :: post)
     = (regularFrames h range pre ++ regularFrames h range post)%list).
  { rewrite regularFrames_app. f_equal.
    unfold regularFrames. simpl. by rewrite Hempty. }
  split_and!; [done | done | |].
  - intros t f Ht Hf. rewrite Hsplit, <- regularFrames_app.
    unfold regularFrames. apply in_flat_map.
    exists (resolveTarget h range t). split; [|done].
    by apply in_map.
  - rewrite map_map. apply map_ext. intros t. apply resolveTarget_refId.
Qed.

Lemma failing_query_isolated_witness :
  resolveTarget Examples.host Examples.range48h (Examples.metricsQuery "B" "7")
  = mkResult "B" []
  /\ regularFrames Examples.host Examples.range48h
       ([Examples.metricsQuery "A" "42"]
        ++ Examples.metricsQuery "B" "7" :: [Examples.metricsQuery "C" "42"])
     = (regularFrames Examples.host Examples.range48h [Examples.metricsQuery "A" "42"]
        ++ regularFrames Examples.host Examples.range48h
             [Examples.metricsQuery "C" "42"])%list
  /\ length (regularFrames Examples.host Examples.range48h
               [Examples.metricsQuery "A" "42"]) = 2.
Proof.
  destruct (failing_query_isolated Examples.host Examples.range48h
              [Examples.metricsQuery "A" "42"] [Examples.metricsQuery "C" "42"]
              (Examples.metricsQuery "B" "7") "Failed to fetch")
    as (Hempty & Hsplit & _).
  - reflexivity.
  - split_and!; [exact Hempty | exact Hsplit | reflexivity].
Defined.

(** * Further properties of the code *)

(** ** Requests *)

(** X1: a request returns the decoded body exactly when the transport
    answered with status 200; a transport error is rethrown as it is, and a
    missing response or status 403 is reported as denied access. *)
Theorem baseExecuteRequest_outcomes (h : Host) (endpoint : string)
    (params : list (string * string)) :
  (forall d, Api.baseExecuteRequest h endpoint params = Ok d
     <-> exists r, fetch h endpoint params = Ok (Some r)
                   /\ status r = 200%Z /\ data r = d)
  /\ (forall e, fetch h endpoint params = Throw e ->
        Api.baseExecuteRequest h endpoint params = Throw e)
  /\ (fetch h endpoint params = Ok None
      \/ (exists r, fetch h endpoint params = Ok (Some r) /\ status r = 403%Z) ->
      Api.baseExecuteRequest h endpoint params
      = Throw "Access denied: please verify API token and permissions").
Proof.
  unfold Api.baseExecuteRequest. split_and!.
  - intros d. destruct (fetch h endpoint params) as [[r|]|e]; simpl.
    + destruct (Z.eqb_spec (status r) 403) as [H403|H403].
      { split; [discriminate|]. intros (r' & [= <-] & H200 & _). lia. }
      destruct (Z.eqb_spec (status r) 200) as [H200|H200]; simpl.
      * split; [intros [= <-]; by exists r|]. by intros (r' & [= <-] & _ & <-).
      * split; [discriminate|]. by intros (r' & [= <-] & H & _).
    + split; [discriminate|]. by intros (r' & [=] & _).
    + split; [discriminate|]. by intros (r' & [=] & _).
  - by intros e ->.
  - intros [->|(r & -> & H403)]; simpl; [done|].
    by rewrite H403.
Qed.

Lemma historyRows_truthy (body rows : JsValue) :
  Api.historyRows body = Ok rows -> truthy rows = true.
Proof.
  unfold Api.historyRows.
  destruct (getProp body "channels") as [c|e]; simpl; [|discriminate].
  destruct (truthy c) eqn:Hc; [by intros [= <-]|].
  destruct (getProp body "histdata") as [d|e]; simpl; [|discriminate].
  intros [= <-]. unfold orElse. by destruct (truthy d) eqn:Hd.
Qed.

Lemma getSensorHistory_inv (h : Host) (sensorId : float)
    (startDate endDate : string) (rows : JsValue) :
  Api.getSensorHistory h sensorId startDate endDate = Ok rows ->
  numTruthy sensorId = true
  /\ exists body,
       Api.baseExecuteRequest h "historicdata.json"
         (Api.historyParams h sensorId startDate endDate) = Ok body
       /\ Api.historyRows body = Ok rows.
Proof.
  unfold Api.getSensorHistory.
  destruct (numTruthy sensorId); simpl; [|discriminate].
  destruct (Api.baseExecuteRequest _ _ _) as [body|e]; simpl; [|discriminate].
  intros Hrows. split; [done|]. by exists body.
Qed.

(** X2: the history request is made only for a sensor id that is neither 0
    nor [NaN]; its [avg] parameter is one of the eight buckets and its
    [sdate], [edate] are the strings given.  Without a valid id the call
    throws whatever the backend would have answered. *)
Theorem getSensorHistory_request (h : Host) (sensorId : float)
    (startDate endDate : string) :
  (numTruthy sensorId = false ->
   Api.getSensorHistory h sensorId startDate endDate
   = Throw "sensorId parameter is required")
  /\ (forall rows,
        Api.getSensorHistory h sensorId startDate endDate = Ok rows
        <-> numTruthy sensorId = true
            /\ exists r, fetch h "historicdata.json"
                           (Api.historyParams h sensorId startDate endDate)
                         = Ok (Some r)
                         /\ status r = 200%Z
                         /\ Api.historyRows (data r) = Ok rows)
  /\ (exists avg, alookup "avg" (Api.historyParams h sensorId startDate endDate)
                  = Some avg /\ In avg Policy.buckets)
  /\ alookup "sdate" (Api.historyParams h sensorId startDate endDate)
     = Some startDate
  /\ alookup "edate" (Api.historyParams h sensorId startDate endDate)
     = Some endDate.
Proof.
  split_and!.
  - intros Hid. unfold Api.getSensorHistory. by rewrite Hid.
  - intros rows. unfold Api.getSensorHistory, Api.baseExecuteRequest.
    destruct (numTruthy sensorId); simpl; [|split; [discriminate | by intros [? _]]].
    destruct (fetch h _ _) as [[r|]|e]; simpl.
    + destruct (Z.eqb_spec (status r) 403) as [H403|H403]; simpl.
      { split; [discriminate|]. intros (_ & r' & [= <-] & H200 & _). lia. }
      destruct (Z.eqb_spec (status r) 200) as [H200|H200]; simpl.
      * split; [intros Hr; split; [done|]; by exists r|].
        by intros (_ & r' & [= <-] & _ & Hr).
      * split; [discriminate|]. by intros (_ & r' & [= <-] & H & _).
    + split; [discriminate|]. by intros (_ & r' & [=] & _).
    + split; [discriminate|]. by intros (_ & r' & [=] & _).
  - eexists. split; [reflexivity|].
    unfold Api.getSensorHistory_avg, Policy.buckets.
    repeat (case (gt _ _); [simpl; tauto|]). simpl; tauto.
  - reflexivity.
  - reflexivity.
Qed.

(** X3: whatever [getSensorHistory] returns is truthy, so the [length]
    read that follows it in [query] cannot throw. *)
Theorem getSensorHistory_truthy (h : Host) (sensorId : float)
    (startDate endDate : string) (rows : JsValue) :
  Api.getSensorHistory h sensorId startDate endDate = Ok rows ->
  truthy rows = true /\ exists len, getProp rows "length" = Ok len.
Proof.
  intros (_ & body & _ & Hrows)%getSensorHistory_inv.
  apply historyRows_truthy in Hrows. split; [done|].
  destruct rows; try discriminate; simpl; eauto.
Qed.

Lemma getSensorHistory_truthy_witness :
  exists rows,
    Api.getSensorHistory Examples.host 42 "2024-01-01T00-00-00" "2024-01-03T00-00-00"
    = Ok rows
    /\ truthy rows = true /\ exists len, getProp rows "length" = Ok len.
Proof.
  eexists. split; [reflexivity|].
  apply (getSensorHistory_truthy Examples.host 42
           "2024-01-01T00-00-00" "2024-01-03T00-00-00").
  reflexivity.
Defined.

(** ** The regular path, target by target *)

Lemma channelFrames_empty (target : MyQuery) : channelFrames target emptyNorm = [].
Proof. reflexivity. Qed.

Lemma fetchFrames_inv (h : Host) (range : TimeRange) (target : MyQuery)
    (frames : list DataFrame) :
  fetchFrames h range target = Ok frames ->
  frames = [] \/ exists st, frames = channelFrames target st.
Proof.
  unfold fetchFrames.
  destruct (formatDate h (from range)) as [startDate|?]; simpl; [|discriminate].
  destruct (formatDate h (to range)) as [endDate|?]; simpl; [|discriminate].
  destruct (Api.getSensorHistory _ _ _ _) as [histData|?]; simpl; [|discriminate].
  destruct (getProp histData "length") as [len|?]; simpl; [|discriminate].
  destruct (truthy len); simpl; [|intros [= <-]; by left].
  destruct (normalizeRows h _) as [st|?]; simpl; [|discriminate].
  intros [= <-]. right. by exists st.
Qed.

(** X4: a history that is not an array (a single object, a string) gives
    no frames: the regular path answers with an empty result instead of
    failing or reading the value as rows. *)
Theorem non_array_history_gives_no_frames (h : Host) (range : TimeRange)
    (target : MyQuery) (startDate endDate : string) (histData : JsValue) :
  formatDate h (from range) = Ok startDate ->
  formatDate h (to range) = Ok endDate ->
  Api.getSensorHistory h (Number_ofString h (sensorId target)) startDate endDate
  = Ok histData ->
  (forall items, histData <> JArr items) ->
  fetchFrames h range target = Ok [].
Proof.
  intros Hfrom Hto Hhist Hnot.
  pose proof (getSensorHistory_inv _ _ _ _ _ Hhist) as (_ & body & _ & Hrows).
  apply historyRows_truthy in Hrows.
  unfold fetchFrames. rewrite Hfrom, Hto. simpl. rewrite Hhist. simpl.
  destruct histData as [| |b|x|s|items|props]; try discriminate;
    try (by destruct (Hnot items)); cbn [getProp bind String.eqb Ascii.eqb Bool.eqb];
    try done.
  - by destruct (negb (truthy (JNum (lengthNum (String.length s))))).
  - by destruct (negb (truthy (default JUndefined (alookup "length" props)))).
Qed.

Lemma non_array_history_gives_no_frames_witness :
  fetchFrames (Samples.hostWith Samples.objectHistory) Examples.range48h
              (Examples.metricsQuery "A" "42") = Ok []
  /\ resolveTarget (Samples.hostWith Samples.objectHistory) Examples.range48h
                   (Examples.metricsQuery "A" "42") = mkResult "A" [].
Proof.
  assert (H := non_array_history_gives_no_frames
                 (Samples.hostWith Samples.objectHistory) Examples.range48h
                 (Examples.metricsQuery "A" "42")
                 "2024-01-01T00-00-00" "2024-01-03T00-00-00"
                 (JObj [ ("datetime", JStr "1/1/2024 12:00:00 AM"); ("Ping", JNum 1) ])
                 eq_refl eq_refl eq_refl).
  split; [apply H; discriminate | reflexivity].
Defined.

(** X5: a target that is not a Metrics query, has no sensor id, or has a
    sensor id that is not a non-zero number gets an empty result under its
    own [refId]; leaving such targets out of a batch does not change the
    frames the batch returns. *)
Theorem resolveTarget_without_data (h : Host) (range : TimeRange)
    (target : MyQuery) (pre post : list MyQuery) :
  queryType target <> Metrics \/ sensorId target = ""
  \/ numTruthy (Number_ofString h (sensorId target)) = false ->
  resolveTarget h range target = mkResult (refId target) []
  /\ regularFrames h range (pre ++ target :: post)
     = regularFrames h range (pre ++ post).
Proof.
  intros Hcase.
  assert (Hempty : resolveTarget h range target = mkResult (refId target) []).
  { unfold resolveTarget, QueryType_eqb.
    destruct Hcase as [Hq|[Hs|Hn]].
    - by rewrite bool_decide_false.
    - rewrite Hs. by rewrite andb_false_r.
    - destruct (bool_decide (queryType target = Metrics) && strTruthy (sensorId target));
        [|done].
      unfold fetchFrames, Api.getSensorHistory. rewrite Hn. simpl.
      destruct (formatDate h (from range)); simpl; [|done].
      by destruct (formatDate h (to range)). }
  split; [done|].
  rewrite !regularFrames_app. f_equal.
  unfold regularFrames. simpl. by rewrite Hempty.
Qed.

Lemma resolveTarget_without_data_witness :
  resolveTarget Examples.host Examples.range48h Examples.rawStreaming
  = mkResult "B" []
  /\ regularFrames Examples.host Examples.range48h
       ([Examples.metricsQuery "A" "42"] ++ Examples.rawStreaming :: [])
     = regularFrames Examples.host Examples.range48h
         ([Examples.metricsQuery "A" "42"] ++ []).
Proof.
  apply (resolveTarget_without_data Examples.host Examples.range48h
           Examples.rawStreaming [Examples.metricsQuery "A" "42"] []).
  left. discriminate.
Defined.

(** X6: every frame of a regular response belongs to a Metrics target of
    the batch that has a sensor id: it carries that target's [refId], no
    metadata, a name made of the target's prefix and a channel label, and
    exactly the two fields [Time] (of type time) and [Value] (of type
    number). *)
Theorem regularFrames_wellformed (h : Host) (range : TimeRange)
    (targets : list MyQuery) (f : DataFrame) :
  In f (regularFrames h range targets) ->
  exists t, In t targets
    /\ queryType t = Metrics /\ sensorId t <> ""
    /\ frameRefId f = refId t /\ meta f = None
    /\ (exists label, frameName f = prefix t ++ label)
    /\ exists axis column,
         fields f = [ mkField "Time" axis time; mkField "Value" column number ].
Proof.
  unfold regularFrames. intros (r & Hr & Hf)%in_flat_map.
  apply in_map_iff in Hr as (t & <- & Ht).
  exists t. split; [done|].
  unfold resolveTarget, QueryType_eqb in Hf.
  destruct (bool_decide (queryType t = Metrics)) eqn:Hq; simpl in Hf; [|done].
  apply bool_decide_eq_true in Hq.
  destruct (strTruthy (sensorId t)) eqn:Hs; simpl in Hf; [|done].
  destruct (fetchFrames h range t) as [frames|e] eqn:Hfetch; simpl in Hf; [|done].
  apply fetchFrames_inv in Hfetch as [->|(st & ->)]; [done|].
  unfold channelFrames in Hf. apply in_map_iff in Hf as (k & <- & _).
  split_and!; try done.
  - intros Hid. by rewrite Hid in Hs.
  - by eexists.
  - by do 2 eexists.
Qed.

Lemma regularFrames_wellformed_witness :
  exists t, In t [Examples.metricsQuery "A" "42"]
    /\ queryType t = Metrics /\ sensorId t <> ""
    /\ frameRefId (seriesOf Examples.host (Examples.metricsQuery "A" "42")
                     [1704067200000; 1704153600000]%float
                     Examples.uniformRows "Ping") = refId t.
Proof.
  destruct (regularFrames_wellformed Examples.host Examples.range48h
              [Examples.metricsQuery "A" "42"]
              (seriesOf Examples.host (Examples.metricsQuery "A" "42")
                 [1704067200000; 1704153600000]%float Examples.uniformRows "Ping"))
    as (t & Hin & Hq & Hs & Href & _).
  - left. reflexivity.
  - exists t. by split_and!.
Defined.

(** ** Series names and request dates *)

(** X7: the prefix of a series name lists the group, device and sensor
    labels in that order, each followed by [" - "], a label being left out
    when its flag is not set or the label is empty; with no flag set the
    series is named by its channel key alone. *)
Theorem prefix_closed_form (target : MyQuery) :
  prefix target
  = prefixPart (includeGroupName target) (group target)
      ++ prefixPart (includeDeviceName target) (device target)
      ++ prefixPart (includeSensorName target) (sensor target)
  /\ (flag (includeGroupName target) = false ->
      flag (includeDeviceName target) = false ->
      flag (includeSensorName target) = false ->
      forall st k, frameName (channelFrame target st k)
                   = default "undefined" (alookup k (channelLabels st))).
Proof.
  split.
  - unfold prefix, prefixParts, prefixPart.
    destruct (flag (includeGroupName target) && strTruthy (group target));
      destruct (flag (includeDeviceName target) && strTruthy (device target));
      destruct (flag (includeSensorName target) && strTruthy (sensor target));
      cbn [app String.concat];
      by rewrite ?append_empty_r, ?append_assoc.
  - intros Hg Hd Hs st k. unfold channelFrame, prefix, prefixParts.
    by rewrite Hg, Hd, Hs.
Qed.

Lemma replaceColonDot_length (s : string) :
  String.length (replaceColonDot s) = String.length s.
Proof. induction s as [|c s IH]; simpl; [done | by rewrite IH]. Qed.

Lemma replaceColonDot_plain (s : string) : plain (replaceColonDot s) = true.
Proof.
  induction s as [|c s IH]; simpl; [done|].
  rewrite IH, andb_true_r.
  destruct (Ascii.eqb c ":" || Ascii.eqb c ".")%bool eqn:Hc; [done|].
  by rewrite Hc.
Qed.

Lemma replaceColonDot_id (s : string) : plain s = true -> replaceColonDot s = s.
Proof.
  induction s as [|c s IH]; simpl; [done|].
  intros [Hc Hs]%andb_true_iff. apply negb_true_iff in Hc.
  by rewrite Hc, IH.
Qed.

Lemma replaceColonDot_app (s1 s2 : string) :
  replaceColonDot (s1 ++ s2) = replaceColonDot s1 ++ replaceColonDot s2.
Proof.
  induction s1 as [|c s1 IH]; [done|].
  change (replaceColonDot (String c (s1 ++ s2))
          = String (if (Ascii.eqb c ":" || Ascii.eqb c ".")%bool then "-"%char else c)
                   (replaceColonDot s1 ++ replaceColonDot s2)).
  simpl. by rewrite IH.
Qed.

Lemma substring_plain (n : nat) (s : string) :
  plain s = true -> plain (String.substring 0 n s) = true.
Proof.
  revert s. induction n as [|n IH]; intros [|c s]; simpl; try done.
  intros [Hc Hs]%andb_true_iff. by rewrite Hc, IH.
Qed.

Lemma substring_length_le (n : nat) (s : string) :
  String.length (String.substring 0 n s) <= n.
Proof.
  revert s. induction n as [|n IH]; intros [|c s]; simpl; try lia.
  specialize (IH s). lia.
Qed.

Lemma substring_app (n : nat) (s1 s2 : string) :
  String.substring 0 (String.length s1 + n) (s1 ++ s2)
  = s1 ++ String.substring 0 n s2.
Proof.
  induction s1 as [|c s1 IH]; [done|].
  change (String.substring 0 (S (String.length s1 + n)) (String c (s1 ++ s2))
          = String c (s1 ++ String.substring 0 n s2)).
  simpl. by rewrite IH.
Qed.

Lemma substring_zero (s : string) : String.substring 0 0 s = "".
Proof. by destruct s. Qed.

(** X8: a date sent to the backend has at most 19 characters and contains
    neither a colon nor a dot. *)
Theorem formatDate_sanitized (h : Host) (ms : float) (s : string) :
  formatDate h ms = Ok s ->
  String.length s <= 19 /\ plain s = true.
Proof.
  unfold formatDate.
  destruct (toISOString h ms) as [iso|e]; simpl; [|discriminate].
  intros [= <-]. split.
  - apply substring_length_le.
  - apply substring_plain, replaceColonDot_plain.
Qed.

Lemma formatDate_sanitized_witness :
  exists s, formatDate Examples.host 1704067200000 = Ok s
            /\ String.length s <= 19 /\ plain s = true.
Proof.
  eexists. split; [reflexivity|].
  apply (formatDate_sanitized Examples.host 1704067200000). reflexivity.
Defined.

(** X9: for an instant whose ISO string is
    [<date>T<hh>:<mm>:<ss>.<rest>], the date sent to the backend is
    [<date>T<hh>-<mm>-<ss>]: the separators of the time become hyphens, the
    [T] between date and time stays, and the fraction and zone are cut. *)
Theorem formatDate_iso (h : Host) (ms : float) (date hh mm ss rest : string) :
  toISOString h ms = Ok (date ++ "T" ++ hh ++ ":" ++ mm ++ ":" ++ ss ++ "." ++ rest) ->
  String.length date = 10 -> String.length hh = 2 ->
  String.length mm = 2 -> String.length ss = 2 ->
  plain date = true -> plain hh = true -> plain mm = true -> plain ss = true ->
  formatDate h ms = Ok (date ++ "T" ++ hh ++ "-" ++ mm ++ "-" ++ ss).
Proof.
  intros Hiso Ld Lh Lm Ls Pd Ph Pm Ps.
  unfold formatDate. rewrite Hiso. simpl. f_equal.
  rewrite !replaceColonDot_app.
  rewrite (replaceColonDot_id date Pd), (replaceColonDot_id hh Ph),
    (replaceColonDot_id mm Pm), (replaceColonDot_id ss Ps).
  change (replaceColonDot "T") with "T".
  change (replaceColonDot ":") with "-".
  change (replaceColonDot ".") with "-".
  change 19 with (10 + (1 + (2 + (1 + (2 + (1 + (2 + 0))))))).
  rewrite <- Ld at 1. rewrite substring_app.
  change 1 with (String.length "T") at 1. rewrite substring_app.
  rewrite <- Lh at 1. rewrite substring_app.
  change 1 with (String.length "-") at 1. rewrite substring_app.
  rewrite <- Lm at 1. rewrite substring_app.
  change 1 with (String.length "-") at 1. rewrite substring_app.
  rewrite <- Ls at 1. rewrite substring_app.
  by rewrite substring_zero, append_empty_r.
Qed.

Lemma formatDate_iso_witness :
  formatDate Examples.host 1704067200000 = Ok "2024-01-01T00-00-00".
Proof.
  apply (formatDate_iso Examples.host 1704067200000
           "2024-01-01" "00" "00" "00" "000Z"); reflexivity.
Defined.

(** ** Samples *)

Lemma numTruthy_not_nan (x : float) :
  numTruthy x = true -> PrimFloat.is_nan x = false.
Proof.
  unfold numTruthy. intros H%negb_true_iff.
  by apply orb_false_iff in H as [_ H].
Qed.

(** X10: a sample that arrives as a number is kept as it is; any other
    value goes through [parseFloat], and when that gives [NaN] or zero the
    sample is 0, so a sample read from text is never [NaN]. *)
Theorem coerce_cases (h : Host) (value : JsValue) :
  (forall x, value = JNum x -> coerce h value = x)
  /\ ((forall x, value <> JNum x) ->
      PrimFloat.is_nan (coerce h value) = false
      /\ (numTruthy (parseFloat h value) = true ->
          coerce h value = parseFloat h value)
      /\ (numTruthy (parseFloat h value) = false -> coerce h value = 0%float)).
Proof.
  split.
  - by intros x ->.
  - intros Hnot.
    assert (Hc : coerce h value
                 = if numTruthy (parseFloat h value) then parseFloat h value
                   else 0%float).
    { destruct value; try done. by destruct (Hnot x). }
    rewrite Hc.
    destruct (numTruthy (parseFloat h value)) eqn:Hp; split_and!; try done.
    by apply numTruthy_not_nan.
Qed.

Lemma rowSamples_length (h : Host) (k : string) (es : list (string * JsValue)) :
  NoDup es.*1 -> length (rowSamples h k es) <= 1.
Proof.
  intros Hnd.
  destruct (String.eqb_spec k "datetime") as [->|Hk].
  { by rewrite rowSamples_datetime; simpl; lia. }
  destruct (in_dec String.string_dec k es.*1) as [Hin|Hnin].
  - by rewrite rowSamples_NoDup.
  - rewrite rowSamples_absent by done. simpl; lia.
Qed.

Lemma samples_within_times (h : Host) (k : string)
    (rows : list (list (string * JsValue))) :
  Forall (fun props => NoDup props.*1) rows ->
  length (List.flat_map (keptSamples h k) rows)
  <= length (List.flat_map (rowTimes h) rows).
Proof.
  induction 1 as [|props rows Hnd _ IH]; [simpl; lia|].
  cbn [List.flat_map]. rewrite !length_app.
  pose proof (rowSamples_length h k props Hnd) as Hle.
  unfold keptSamples at 1. unfold rowTimes at 1.
  destruct (rowKept props); cbn [length]; lia.
Qed.

(** X11: whatever keys the rows carry, as long as none of them names an
    inherited property, normalization succeeds, the time axis has one
    entry per row with a truthy timestamp, and every series has at least
    one sample and never more samples than the axis has entries. *)
Theorem series_within_axis (h : Host) (target : MyQuery)
    (rows : list (list (string * JsValue))) :
  Forall rowSafe rows ->
  Forall (fun props => NoDup props.*1) rows ->
  exists st,
    normalizeRows h (JObj <$> rows) = Ok st
    /\ length (times st) = length (List.filter rowKept rows)
    /\ forall f, In f (channelFrames target st) ->
         exists column, samples f = Some column
                        /\ 1 <= length column <= length (times st).
Proof.
  intros Hsafe Hnd.
  destruct (rows_spec h rows emptyNorm wfNorm_empty Hsafe)
    as (st & Hrun & _ & Ht & Hv).
  exists st. simpl in Ht. split_and!; [done | |].
  - rewrite Ht. clear. induction rows as [|props rows IH]; simpl; [done|].
    rewrite length_app, IH. unfold rowTimes.
    by destruct (rowKept props).
  - intros f Hf. unfold channelFrames in Hf.
    apply in_map_iff in Hf as (k & <- & Hk).
    apply list_elem_of_In in Hk. rewrite ownKeysOrder_Permutation in Hk.
    apply list_elem_of_In in Hk.
    destruct (alookup k (values st)) as [col|] eqn:Hcol;
      [|by apply alookup_None in Hcol].
    exists col. split; [cbn; by rewrite Hcol|].
    rewrite Hv in Hcol. simpl in Hcol. rewrite extendCol_None in Hcol.
    pose proof (samples_within_times h k rows Hnd) as Hle.
    rewrite Ht.
    destruct (List.flat_map (keptSamples h k) rows) as [|x l] eqn:Hs; [done|].
    injection Hcol as <-. simpl in *. lia.
Qed.

Lemma series_within_axis_witness :
  exists st,
    normalizeRows Examples.host Examples.raggedRows = Ok st
    /\ length (times st) = 2.
Proof.
  destruct (series_within_axis Examples.host (Examples.metricsQuery "A" "42")
              [ [ ("datetime", JStr "1/1/2024 12:00:00 AM"); ("Ping", JNum 1) ];
                [ ("datetime", JStr "1/2/2024 12:00:00 AM"); ("Ping", JNum 4);
                  ("Loss", JNum 3) ] ])
    as (st & Hrun & Hlen & _).
  - repeat (apply List.Forall_cons; [|try apply List.Forall_nil]);
      intros _ e He _; simpl in He;
      repeat (destruct He as [<-|He]; [reflexivity|]); destruct He.
  - repeat (apply List.Forall_cons; [|try apply List.Forall_nil]);
      by apply (bool_decide_unpack _).
  - exists st. split; [exact Hrun | exact Hlen].
Defined.

(** ** Streams *)

Lemma streamingMeta_override (id1 id2 : string) (m : gmap string JsValue) :
  streamingMeta id2 (streamingMeta id1 m) = streamingMeta id2 m.
Proof.
  apply map_eq. intros k. unfold streamingMeta.
  rewrite !lookup_insert.
  repeat case_decide; try done; congruence.
Qed.

(** X12: tagging is idempotent and the last tag wins: enhancing an
    already enhanced emission again, with the same or with another stream
    identifier, gives what enhancing the original emission with the last
    identifier gives. *)
Theorem enhanceResponse_again (id1 id2 : string)
    (responseData : option (list (option DataFrame))) :
  enhanceResponse id2 (Some (enhanceResponse id1 responseData))
  = enhanceResponse id2 responseData.
Proof.
  unfold enhanceResponse. simpl. rewrite map_map. apply map_ext.
  intros [f|]; [|done]. simpl.
  destruct (meta f) as [m|] eqn:Hm; simpl; [|by rewrite Hm].
  by rewrite streamingMeta_override.
Qed.

(** X13: the derivation is not injective: a sensor id that contains the
    separator runs together with the channel component, so a query with
    sensor id [s_c] and no channel gets the identifier of a query with
    sensor id [s] and channel [c] on the same panel and [refId]. *)
Theorem getStreamId_collision (h : Host) (q1 q2 : MyQuery) :
  panelId q1 = panelId q2 -> refId q1 = refId q2 ->
  strTruthy (sensorId q2) = true -> strTruthy (channelPart q2) = true ->
  sensorId q1 = sensorId q2 ++ "_" ++ channelPart q2 ->
  channelPart q1 = "" ->
  getStreamId h q1 = getStreamId h q2 /\ ~ sameStreamInputs q1 q2.
Proof.
  intros Hp Hr Hs Hc Hjoin Hnone. split.
  - rewrite !getStreamId_closed_form, Hp, Hr, Hjoin, Hnone.
    do 3 f_equal. unfold optPart. rewrite Hs, Hc.
    destruct (sensorId q2) as [|a s]; [done|]. simpl.
    by rewrite append_empty_r, !append_assoc.
  - intros (_ & _ & _ & Heq). rewrite Hnone in Heq. by rewrite <- Heq in Hc.
Qed.

Lemma getStreamId_collision_witness :
  getStreamId Examples.host Samples.joinedSensor
  = getStreamId Examples.host Samples.splitSensor
  /\ ~ sameStreamInputs Samples.joinedSensor Samples.splitSensor.
Proof.
  apply (getStreamId_collision Examples.host Samples.joinedSensor
           Samples.splitSensor); reflexivity.
Defined.

(** ** Lookups of the hierarchy *)

Lemma memberOrEmpty_spec (body : JsValue) (member : string) :
  body <> JNull -> body <> JUndefined ->
  member <> "length" ->
  ApiLists.memberOrEmpty body member
  = Ok (orElse (default JUndefined (ownField body member)) (JArr [])).
Proof.
  intros Hn Hu Hm. unfold ApiLists.memberOrEmpty.
  destruct body; try done; simpl;
    by rewrite ?(proj2 (String.eqb_neq _ _) Hm).
Qed.

Lemma memberOrEmpty_truthy (body items : JsValue) (member : string) :
  ApiLists.memberOrEmpty body member = Ok items ->
  truthy items = true /\ body <> JNull /\ body <> JUndefined.
Proof.
  unfold ApiLists.memberOrEmpty.
  destruct (getProp body member) as [v|e] eqn:Hv; simpl; [|discriminate].
  intros [= <-]. split.
  - unfold orElse. by destruct (truthy v) eqn:Ht.
  - split; intros ->; discriminate.
Qed.

Lemma asArray_orElse (v : JsValue) :
  (forall l, v = JArr l ->
     DataSourceLists.asArray (orElse v (JArr [])) = l)
  /\ (truthy v = true -> (forall l, v <> JArr l) ->
      DataSourceLists.asArray (orElse v (JArr [])) = [v])
  /\ (truthy v = false -> DataSourceLists.asArray (orElse v (JArr [])) = []).
Proof.
  unfold orElse. split_and!.
  - intros l ->. reflexivity.
  - intros Ht Hn. rewrite Ht. unfold DataSourceLists.asArray.
    destruct v as [| |b|x|s|l|props].
    + discriminate Ht.
    + discriminate Ht.
    + by rewrite Ht.
    + by rewrite Ht.
    + by rewrite Ht.
    + by destruct (Hn l).
    + reflexivity.
  - intros Ht. rewrite Ht. reflexivity.
Qed.

(** X14: [DataSource.getSensors] always answers with an array and with
    the number of its elements as [treesize]: the backend's array as it
    is, a single sensor object wrapped into a one-element array, and an
    empty array when the [sensors] member is missing or falsy.  It answers
    only for a non-empty device name. *)
Theorem getSensors_envelope (h : Host) (device : string) (env : JsValue) :
  DataSourceLists.getSensors h device = Ok env ->
  device <> ""
  /\ exists body l,
       Api.baseExecuteRequest h "table.json"
         [ ("content", "sensors"); ("columns", ApiLists.listColumns);
           ("count", "50000"); ("filter_device", device) ] = Ok body
       /\ env = DataSourceLists.envelope "sensors"
                  (JNum (lengthNum (length l))) (JArr l)
       /\ (forall l0, ownField body "sensors" = Some (JArr l0) -> l = l0)
       /\ (forall v, ownField body "sensors" = Some v -> truthy v = true ->
                     (forall l0, v <> JArr l0) -> l = [v])
       /\ (~ presentTruthy body "sensors" -> l = []).
Proof.
  unfold DataSourceLists.getSensors, ApiLists.getSensors.
  destruct device as [|c device']; simpl; [discriminate|].
  destruct (Api.baseExecuteRequest h _ _) as [body|e] eqn:Hreq; simpl; [|discriminate].
  destruct (ApiLists.memberOrEmpty body "sensors") as [items|e] eqn:Hmem;
    simpl; [|discriminate].
  intros [= <-]. split; [done|].
  destruct (memberOrEmpty_truthy _ _ _ Hmem) as (_ & Hn & Hu).
  rewrite memberOrEmpty_spec in Hmem by done. injection Hmem as <-.
  exists body, (DataSourceLists.asArray
                  (orElse (default JUndefined (ownField body "sensors")) (JArr []))).
  destruct (asArray_orElse (default JUndefined (ownField body "sensors")))
    as (Harr & Hone & Hnone).
  split_and!; try done.
  - intros l0 Hl0. apply Harr. by rewrite Hl0.
  - intros v Hv Ht Hna. rewrite Hv in Hone |- *. by apply Hone.
  - intros Hnp. apply Hnone.
    destruct (ownField body "sensors") as [v|] eqn:Hv; [|done]. simpl.
    destruct (truthy v) eqn:Ht; [|done]. exfalso. apply Hnp. by exists v.
Qed.

Lemma getSensors_envelope_witness :
  exists l,
    DataSourceLists.getSensors (Samples.hostWith Samples.singleSensor) "Router"
    = Ok (DataSourceLists.envelope "sensors" (JNum (lengthNum (length l))) (JArr l))
    /\ l = [ JObj [ ("objid", JNum 42); ("sensor", JStr "Ping") ] ].
Proof.
  destruct (getSensors_envelope (Samples.hostWith Samples.singleSensor) "Router"
              (DataSourceLists.envelope "sensors" (JNum 1)
                 (JArr [ JObj [ ("objid", JNum 42); ("sensor", JStr "Ping") ] ])))
    as (_ & body & l & Hreq & Henv & _ & Hone & _).
  - reflexivity.
  - injection Hreq as <-.
    specialize (Hone _ eq_refl eq_refl ltac:(discriminate)).
    exists l. split; [by rewrite Hone | exact Hone].
Defined.

(** X15: [DataSource.getDevices] hands the backend's [devices] member on
    unchanged: an array comes with its length as [treesize], a missing or
    falsy member becomes an empty array with [treesize] 0, and a single
    device object (which [getSensors] would wrap) is passed as it is, with
    whatever its own [length] member is, so usually no [treesize]. *)
Theorem getDevices_envelope (h : Host) (group : string) (body : JsValue) :
  group <> "" ->
  Api.baseExecuteRequest h "table.json"
    [ ("content", "devices"); ("columns", ApiLists.listColumns);
      ("count", "50000"); ("filter_group", group) ] = Ok body ->
  body <> JNull -> body <> JUndefined ->
  (forall l, ownField body "devices" = Some (JArr l) ->
     DataSourceLists.getDevices h group
     = Ok (DataSourceLists.envelope "devices" (JNum (lengthNum (length l))) (JArr l)))
  /\ (~ presentTruthy body "devices" ->
      DataSourceLists.getDevices h group
      = Ok (DataSourceLists.envelope "devices" (JNum 0) (JArr [])))
  /\ (forall props, ownField body "devices" = Some (JObj props) ->
        DataSourceLists.getDevices h group
        = Ok (DataSourceLists.envelope "devices"
                (default JUndefined (alookup "length" props)) (JObj props))).
Proof.
  intros Hg Hreq Hn Hu.
  assert (Hrun : DataSourceLists.getDevices h group
                 = bind (ApiLists.memberOrEmpty body "devices") (fun items =>
                     bind (getProp items "length") (fun n =>
                       Ok (DataSourceLists.envelope "devices" n items)))).
  { unfold DataSourceLists.getDevices, ApiLists.getDevices.
    destruct group as [|c g]; [done|]. simpl. by rewrite Hreq. }
  rewrite Hrun, memberOrEmpty_spec by done. unfold orElse. split_and!.
  - by intros l ->.
  - intros Hnp. destruct (ownField body "devices") as [v|] eqn:Hv; simpl; [|done].
    destruct (truthy v) eqn:Ht; [|done]. exfalso. apply Hnp. by exists v.
  - by intros props ->.
Qed.

Lemma getDevices_envelope_witness :
  DataSourceLists.getDevices
    (Samples.hostWith (JObj [ ("devices", JArr [ JStr "Router"; JStr "Switch" ]) ]))
    "Core"
  = Ok (DataSourceLists.envelope "devices" (JNum 2)
          (JArr [ JStr "Router"; JStr "Switch" ])).
Proof.
  destruct (getDevices_envelope
              (Samples.hostWith
                 (JObj [ ("devices", JArr [ JStr "Router"; JStr "Switch" ]) ]))
              "Core" (JObj [ ("devices", JArr [ JStr "Router"; JStr "Switch" ]) ]))
    as (Harr & _); try discriminate; [reflexivity|].
  exact (Harr [ JStr "Router"; JStr "Switch" ] eq_refl).
Defined.

(** X16: what the list endpoints return is never [null], [undefined] or
    another falsy value, and [getGroups] fails only when the request
    itself fails: for every list the endpoint returns, the envelope is
    built around that very list. *)
Theorem list_endpoints_truthy (h : Host) (selector : string) (items : JsValue) :
  ApiLists.getGroupList h = Ok items
  \/ ApiLists.getDevices h selector = Ok items
  \/ ApiLists.getSensors h selector = Ok items
  \/ ApiLists.getChannels h selector = Ok items ->
  truthy items = true
  /\ (ApiLists.getGroupList h = Ok items ->
      exists n, DataSourceLists.getGroups h
                = Ok (DataSourceLists.envelope "groups" n items)).
Proof.
  intros Hcase.
  assert (Ht : truthy items = true).
  { destruct Hcase as [H|[H|[H|H]]]; revert H;
      unfold ApiLists.getGroupList, ApiLists.getDevices, ApiLists.getSensors,
        ApiLists.getChannels;
      try (destruct (negb (strTruthy selector)); [discriminate|]);
      (destruct (Api.baseExecuteRequest h _ _) as [body|e]; simpl; [|discriminate]);
      intros H; by apply memberOrEmpty_truthy in H as [? _]. }
  split; [done|].
  intros Hg. unfold DataSourceLists.getGroups. rewrite Hg. simpl.
  destruct items; try discriminate; simpl; eauto.
Qed.

Lemma list_endpoints_truthy_witness :
  exists items,
    ApiLists.getGroupList (Samples.hostWith (JObj [])) = Ok items
    /\ truthy items = true
    /\ exists n, DataSourceLists.getGroups (Samples.hostWith (JObj []))
                 = Ok (DataSourceLists.envelope "groups" n items).
Proof.
  destruct (list_endpoints_truthy (Samples.hostWith (JObj [])) "" (JArr []))
    as [Ht Henv].
  - left. reflexivity.
  - exists (JArr []). split_and!; [reflexivity | exact Ht | exact (Henv eq_refl)].
Defined.

(** X17: the health check reports success exactly when the status request
    was answered with status 200 and a truthy body; every other outcome,
    a thrown error included, is reported as an error. *)
Theorem testDatasource_status (h : Host) (isError : string -> bool) :
  (DataSourceLists.testStatus (DataSourceLists.testDatasource h isError) = "success"
   <-> exists r, fetch h "status.json" [] = Ok (Some r)
                 /\ status r = 200%Z /\ truthy (data r) = true)
  /\ (DataSourceLists.testStatus (DataSourceLists.testDatasource h isError) = "success"
      \/ DataSourceLists.testStatus (DataSourceLists.testDatasource h isError) = "error").
Proof.
  unfold DataSourceLists.testDatasource, ApiLists.getStatusList,
    Api.baseExecuteRequest.
  destruct (fetch h "status.json" []) as [[r|]|e]; simpl.
  - destruct (Z.eqb_spec (status r) 403) as [H403|H403]; simpl.
    { split; [|by right]. split; [discriminate|].
      intros (r' & [= <-] & H200 & _). lia. }
    destruct (Z.eqb_spec (status r) 200) as [H200|H200]; simpl.
    + destruct (truthy (data r)) eqn:Ht; simpl.
      * split; [|by left]. split; [by exists r|done].
      * split; [|by right]. split; [discriminate|].
        intros (r' & [= <-] & _ & Ht'). congruence.
    + split; [|by right]. split; [discriminate|].
      by intros (r' & [= <-] & H & _).
  - split; [|by right]. split; [discriminate|]. by intros (r' & [=] & _).
  - split; [|by right]. split; [discriminate|]. by intros (r' & [=] & _).
Qed.

(** ** The configuration editor *)

(** X18: whatever is typed, the cache timeout written to the options is
    greater than 0 and at most 1440 (so never [NaN]): an input inside that
    range is kept, any other becomes 5, and the error text is shown exactly
    when the input was replaced. *)
Theorem onCacheChange_bounds (cache_timeout : float) :
  gt (ConfigEditor.onCacheChange cache_timeout) 0 = true
  /\ PrimFloat.leb (ConfigEditor.onCacheChange cache_timeout) 1440 = true
  /\ (gt cache_timeout 0 = true -> PrimFloat.leb cache_timeout 1440 = true ->
      ConfigEditor.onCacheChange cache_timeout = cache_timeout
      /\ ConfigEditor.onCacheChange_error cache_timeout = "")
  /\ (gt cache_timeout 0 = false \/ PrimFloat.leb cache_timeout 1440 = false ->
      ConfigEditor.onCacheChange cache_timeout = 5%float
      /\ ConfigEditor.onCacheChange_error cache_timeout <> "").
Proof.
  unfold ConfigEditor.onCacheChange, ConfigEditor.onCacheChange_error.
  destruct (gt cache_timeout 0) eqn:Hgt;
    destruct (PrimFloat.leb cache_timeout 1440) eqn:Hle; simpl;
    split_and!; try done; try (intros [?|?]; done).
Qed.

(** ** Annotations *)

Lemma append_inj_l (s a b : string) : s ++ a = s ++ b -> a = b.
Proof.
  induction s as [|c s IH]; [done|].
  change (String c (s ++ a) = String c (s ++ b) -> a = b).
  intros [= H]. by apply IH.
Qed.

Lemma mapAnnotations_spec (h : Host) (sensorId : string) (rows : list JsValue) :
  forall (n : nat) (all : list Annotations.Annotation),
  Annotations.mapAnnotations h sensorId n rows = Ok all ->
  length all = length rows
  /\ forall i a, all !! i = Some a ->
       Annotations.annotationId a = "uid:" ++ sensorId ++ "_" ++ pretty (n + i)
       /\ Annotations.annotationTimeEnd a = Annotations.annotationTime a
       /\ exists row datetime,
            rows !! i = Some row
            /\ getProp row "datetime" = Ok datetime
            /\ Annotations.annotationTime a = Date_getTime h datetime
            /\ getProp row "value_" = Ok (Annotations.annotationData a).
Proof.
  induction rows as [|row rows IH]; intros n all; simpl.
  { intros [= <-]. split; [done|]. by intros i a. }
  unfold Annotations.toAnnotation.
  destruct (getProp row "datetime") as [dt|?] eqn:Hdt; simpl; [|discriminate].
  destruct (getProp row "value_") as [v|?] eqn:Hv; simpl; [|discriminate].
  destruct (Annotations.mapAnnotations h sensorId (S n) rows) as [l|?] eqn:Hl;
    simpl; [|discriminate].
  intros [= <-]. destruct (IH (S n) l Hl) as [Hlen Hith].
  split; [simpl; by rewrite Hlen|].
  intros [|i] a Ha; simpl in Ha.
  - injection Ha as <-. simpl. rewrite Nat.add_0_r.
    split_and!; [done | done |]. by exists row, dt.
  - destruct (Hith i a Ha) as (Hid & Hend & Hrow).
    split_and!; [|done|done].
    rewrite Hid. do 3 f_equal. f_equal. lia.
Qed.

(** X19: mapping a history to annotations yields one annotation per row,
    in row order; the annotation of row [i] has the id
    [uid:<sensorId>_<i>], the instant of the row's [datetime] as both
    [time] and [timeEnd] and the row's [value_] as data, and no two
    annotations of one response share an id. *)
Theorem annotations_one_per_row (h : Host) (sensorId : string)
    (rows : list JsValue) (all : list Annotations.Annotation) :
  Annotations.mapAnnotations h sensorId 0 rows = Ok all ->
  length all = length rows
  /\ NoDup (Annotations.annotationId <$> all)
  /\ forall i a, all !! i = Some a ->
       Annotations.annotationId a = "uid:" ++ sensorId ++ "_" ++ pretty i
       /\ Annotations.annotationTimeEnd a = Annotations.annotationTime a
       /\ exists row datetime,
            rows !! i = Some row
            /\ getProp row "datetime" = Ok datetime
            /\ Annotations.annotationTime a = Date_getTime h datetime
            /\ getProp row "value_" = Ok (Annotations.annotationData a).
Proof.
  intros Hmap. destruct (mapAnnotations_spec h sensorId rows 0 all Hmap)
    as [Hlen Hith].
  split_and!; [done | | done].
  apply NoDup_alt. intros i j x Hi Hj.
  apply list_lookup_fmap_Some in Hi as (a & -> & Ha).
  apply list_lookup_fmap_Some in Hj as (b & Heq & Hb).
  destruct (Hith i a Ha) as (Hida & _). destruct (Hith j b Hb) as (Hidb & _).
  rewrite Hida, Hidb in Heq. simpl in Heq.
  do 3 apply append_inj_l in Heq. by apply (inj pretty) in Heq.
Qed.

Lemma annotations_one_per_row_witness :
  exists all,
    Annotations.mapAnnotations Examples.host "42" 0 Examples.raggedRows = Ok all
    /\ length all = 2
    /\ NoDup (Annotations.annotationId <$> all).
Proof.
  eexists. split; [reflexivity|].
  destruct (annotations_one_per_row Examples.host "42" Examples.raggedRows _ eq_refl)
    as (Hlen & Hnd & _).
  split; [exact Hlen | exact Hnd].
Defined.

(** X20: a limit only ever cuts the tail: the annotations returned are the
    first ones of the full list, [total] counts them, and without a limit,
    or with a limit that is 0, negative or [NaN], the full list is
    returned. *)
Theorem limit_keeps_a_prefix (limit : option float)
    (all : list Annotations.Annotation) :
  (exists n, Annotations.annotations (Annotations.respond limit all) = take n all)
  /\ Annotations.total (Annotations.respond limit all)
     = length (Annotations.annotations (Annotations.respond limit all))
  /\ Annotations.total (Annotations.respond limit all) <= length all
  /\ (limit = None
      \/ (exists x, limit = Some x /\ (numTruthy x = false \/ gt x 0 = false)) ->
      Annotations.annotations (Annotations.respond limit all) = all).
Proof.
  unfold Annotations.respond, Annotations.applyLimit. simpl.
  split_and!.
  - destruct limit as [x|]; [destruct (numTruthy x && gt x 0)|]; eauto;
      exists (length all); by rewrite firstn_all.
  - done.
  - destruct limit as [x|]; [destruct (numTruthy x && gt x 0)|]; try lia.
    rewrite length_take. lia.
  - intros [->|(x & -> & [Hx|Hx])]; [done | |]; rewrite Hx; simpl; [done|].
    by rewrite andb_false_r.
Qed.

(** X21: the two annotation fetches agree wherever the one of the API
    client returns: every response [getAnnotationData] gives is also what
    [getAnnotations] gives for the same query.  They differ only on a
    history that is not an array, which [getAnnotationData] fails on and
    [getAnnotations] answers with no annotations. *)
Theorem annotation_fetches_agree (h : Host) (query : Annotations.AnnotationQuery)
    (response : Annotations.AnnotationResponse) :
  Annotations.getAnnotationData h query = Ok response ->
  Annotations.getAnnotations h query = Ok response.
Proof.
  unfold Annotations.getAnnotationData, Annotations.getAnnotations.
  destruct (formatDate h (Annotations.annFrom query)) as [fromStr|?];
    simpl; [|discriminate].
  destruct (formatDate h (Annotations.annTo query)) as [toStr|?];
    simpl; [|discriminate].
  destruct (Api.getSensorHistory h _ fromStr toStr) as [histData|?];
    simpl; [|discriminate].
  by destruct (orElse histData (JArr [])).
Qed.

Lemma annotation_fetches_agree_witness :
  exists response,
    Annotations.getAnnotations Examples.host (Samples.annotationQuery (Some 1%float))
    = Ok response
    /\ Annotations.total response = 1.
Proof.
  eexists. split.
  - apply (annotation_fetches_agree Examples.host
             (Samples.annotationQuery (Some 1%float))). reflexivity.
  - reflexivity.
Defined.

Lemma non_array_history_annotations :
  Annotations.getAnnotations (Samples.hostWith Samples.objectHistory)
    (Samples.annotationQuery None)
  = Ok (Annotations.mkAnnotationResponse [] 0)
  /\ Annotations.getAnnotationData (Samples.hostWith Samples.objectHistory)
       (Samples.annotationQuery None)
     = Throw "TypeError: (histData || []).map is not a function".
Proof. split; reflexivity. Qed.

Lemma frameEvent_channelFrame (h : Host) (props : list (string * JsValue))
    (target : MyQuery) (st : NormState) (k : string) :
  exists e,
    Annotations.frameEvent h (JObj props) (channelFrame target st k) = Ok (Some e)
    /\ Annotations.eventTitle e
       = strOr (frameName (channelFrame target st k)) "PRTG Channel"
    /\ Annotations.eventTime e = head (times st)
    /\ Annotations.eventTimeEnd e
       = (if Annotations.differs (last (times st)) (head (times st))
          then last (times st) else None).
Proof. eexists. split; [reflexivity|]. by split_and!. Qed.

Lemma processEvents_total (h : Host) (props : list (string * JsValue))
    (data : list DataFrame) :
  exists evs, Annotations.processEvents h (JObj props) data = Ok evs
              /\ length evs <= length data.
Proof.
  induction data as [|f data (evs & Hrun & Hlen)]; [by exists []|].
  cbn [Annotations.processEvents]. rewrite Hrun.
  unfold Annotations.frameEvent.
  destruct (findField "Time" f) as [tf|]; [destruct (findField "Value" f) as [vf|]|];
    simpl; eexists; (split; [reflexivity|]); simpl; lia.
Qed.

(** X22: [processEvents] never fails on an annotation object and emits at
    most one event per frame.  On the frames the normalization builds it
    emits exactly one event per series, in order: titled with the series
    name (["PRTG Channel"] for an empty name), timed at the first entry of
    the time axis, and with an end time only when the last entry differs
    from the first. *)
Theorem processEvents_on_series (h : Host) (props : list (string * JsValue))
    (target : MyQuery) (st : NormState) :
  (forall data, exists evs,
     Annotations.processEvents h (JObj props) data = Ok evs
     /\ length evs <= length data)
  /\ exists evs,
       Annotations.processEvents h (JObj props) (channelFrames target st) = Ok evs
       /\ List.map Annotations.eventTitle evs
          = List.map (fun f => strOr (frameName f) "PRTG Channel")
                     (channelFrames target st)
       /\ Forall (fun e =>
            Annotations.eventTime e = head (times st)
            /\ Annotations.eventTimeEnd e
               = (if Annotations.differs (last (times st)) (head (times st))
                  then last (times st) else None)) evs.
Proof.
  split; [apply processEvents_total|].
  unfold channelFrames.
  induction (ownKeysOrder (List.map fst (values st))) as [|k ks (evs & Hrun & Ht & Hall)].
  { exists []. by split_and!. }
  destruct (frameEvent_channelFrame h props target st k) as (e & He & Htitle & Htime).
  exists (e :: evs). cbn [List.map Annotations.processEvents].
  rewrite He. cbn [bind]. rewrite Hrun. cbn [bind].
  split_and!; [done | | by constructor].
  cbn [List.map]. by rewrite Htitle, Ht.
Qed.

(** ** Channels of a sensor *)

(** X23: [DataSource.getChannels] always answers with an array under
    [values] and with its length as [treesize]: the backend's array as it
    is, a single row object wrapped into a one-element array, and an empty
    array when the [channels] member is missing or falsy.  It answers only
    for a non-empty sensor id. *)
Theorem getChannels_envelope (h : Host) (sensorId : string) (env : JsValue) :
  DataSourceLists.getChannels h sensorId = Ok env ->
  sensorId <> ""
  /\ exists body l,
       Api.baseExecuteRequest h "historicdata.json"
         [ ("content", "values"); ("id", sensorId);
           ("columns", "value_,datetime"); ("usecaption", "true") ] = Ok body
       /\ env = DataSourceLists.envelope "values"
                  (JNum (lengthNum (length l))) (JArr l)
       /\ (forall l0, ownField body "channels" = Some (JArr l0) -> l = l0)
       /\ (forall v, ownField body "channels" = Some v -> truthy v = true ->
                     (forall l0, v <> JArr l0) -> l = [v])
       /\ (~ presentTruthy body "channels" -> l = []).
Proof.
  unfold DataSourceLists.getChannels, ApiLists.getChannels.
  destruct sensorId as [|c sensorId']; simpl; [discriminate|].
  destruct (Api.baseExecuteRequest h _ _) as [body|e] eqn:Hreq; simpl; [|discriminate].
  destruct (ApiLists.memberOrEmpty body "channels") as [items|e] eqn:Hmem;
    simpl; [|discriminate].
  intros [= <-]. split; [done|].
  destruct (memberOrEmpty_truthy _ _ _ Hmem) as (_ & Hn & Hu).
  rewrite memberOrEmpty_spec in Hmem by done. injection Hmem as <-.
  exists body, (DataSourceLists.asArray
                  (orElse (default JUndefined (ownField body "channels")) (JArr []))).
  destruct (asArray_orElse (default JUndefined (ownField body "channels")))
    as (Harr & Hone & Hnone).
  split_and!; try done.
  - intros l0 Hl0. apply Harr. by rewrite Hl0.
  - intros v Hv Ht Hna. rewrite Hv in Hone |- *. by apply Hone.
  - intros Hnp. apply Hnone.
    destruct (ownField body "channels") as [v|] eqn:Hv; [|done]. simpl.
    destruct (truthy v) eqn:Ht; [|done]. exfalso. apply Hnp. by exists v.
Qed.

Lemma getChannels_envelope_witness :
  exists l,
    DataSourceLists.getChannels (Samples.hostWith (JObj [])) "42"
    = Ok (DataSourceLists.envelope "values" (JNum (lengthNum (length l))) (JArr l))
    /\ l = [].
Proof.
  destruct (getChannels_envelope (Samples.hostWith (JObj [])) "42"
              (DataSourceLists.envelope "values" (JNum 0) (JArr [])))
    as (_ & body & l & Hreq & Henv & _ & _ & Hnone).
  - reflexivity.
  - injection Hreq as <-.
    assert (Hl : l = []).
    { apply Hnone. intros (v & Hv & _). discriminate Hv. }
    exists l. split; [by rewrite Hl | exact Hl].
Defined.

(** X24: the channel options of the editor are the keys of the first
    channel row, in their order, without [datetime]: the very channel keys
    for which the normalization of rows with these keys builds series.
    Every option has its key as label and as value, and no option is ever
    offered for [datetime]. *)
Theorem loadChannelOptions_first_row (h : Host) (sensorId : string)
    (body : JsValue) (props : list (string * JsValue)) (rest : list JsValue) :
  sensorId <> "" ->
  Api.baseExecuteRequest h "historicdata.json"
    [ ("content", "values"); ("id", sensorId);
      ("columns", "value_,datetime"); ("usecaption", "true") ] = Ok body ->
  ownField body "channels" = Some (JArr (JObj props :: rest)) ->
  QueryEditor.loadChannelOptions h sensorId
  = List.map (fun key => QueryEditor.mkOption key key) (channelKeys props.*1)
  /\ Forall (fun o => QueryEditor.value o <> "datetime"
                      /\ QueryEditor.label o = QueryEditor.value o
                      /\ In (QueryEditor.value o) props.*1)
            (QueryEditor.loadChannelOptions h sensorId).
Proof.
  intros Hid Hreq Hch.
  assert (Hrun : QueryEditor.loadChannelOptions h sensorId
                 = List.map (fun key => QueryEditor.mkOption key key)
                            (channelKeys props.*1)).
  { unfold QueryEditor.loadChannelOptions, DataSourceLists.getChannels,
      ApiLists.getChannels.
    destruct sensorId as [|c s]; [done|]. simpl. rewrite Hreq. simpl.
    destruct body as [| |b|x|s0|items|bprops]; try discriminate.
    simpl in Hch. unfold ApiLists.memberOrEmpty. simpl. by rewrite Hch. }
  split; [done|]. rewrite Hrun.
  apply Forall_forall. intros o (k & <- & Hk)%list_elem_of_In%in_map_iff.
  apply filter_In in Hk as [Hin Hne].
  split_and!; [|done|done].
  by apply negb_true_iff, String.eqb_neq in Hne.
Qed.

Lemma loadChannelOptions_first_row_witness :
  QueryEditor.loadChannelOptions
    (Samples.hostWith (JObj [ ("channels", JArr (JObj <$> Examples.uniformRows)) ]))
    "42"
  = [ QueryEditor.mkOption "Ping" "Ping"; QueryEditor.mkOption "Loss" "Loss" ].
Proof.
  destruct (loadChannelOptions_first_row
              (Samples.hostWith
                 (JObj [ ("channels", JArr (JObj <$> Examples.uniformRows)) ]))
              "42"
              (JObj [ ("channels", JArr (JObj <$> Examples.uniformRows)) ])
              [ ("datetime", JStr "1/1/2024 12:00:00 AM"); ("Ping", JNum 1);
                ("Loss", JStr "2.5") ]
              [ JObj [ ("Loss", JStr "n/a"); ("datetime", JStr "1/2/2024 12:00:00 AM");
                       ("Ping", JNum 4) ] ])
    as [Hopts _].
  - discriminate.
  - reflexivity.
  - reflexivity.
  - exact Hopts.
Defined.
